(** * Artemis: the NanoLibController decoders and the profile-position script

    A shallow embedding of [src/main.py]: the two static decoders of class
    [NanoLibController] ([decode_status], [decode_mode]), the bus selection
    [select_bus], the numeric register accessors [read_number] and
    [write_number], and the enable-and-move part of the [__main__] block
    (lines 478-534).  Python integers are [Z], Python strings are [string],
    the dict literal of [decode_status] is a [gmap], and the calls into the
    vendor accessor are the nodes of a finite interaction tree that is run
    against the results the accessor hands back.

    The second part embeds the rest of the class (the scan callback, the
    listing, option, life-cycle, array and string methods) and the whole
    [__main__] block as sessions over all the accessor's methods, with the
    constants of the vendor module as parameters. *)

From Stdlib Require Import ZArith Lia.
From stdpp Require Import gmap strings list fin_maps pretty.

Local Open Scope Z_scope.
Local Open Scope string_scope.

(** ** Python primitives used by the source *)

Module Py.

(** [x in l] for a list of integers: equality on each element in turn. *)
Definition int_in (x : Z) (l : list Z) : bool := existsb (Z.eqb x) l.

(** [needle in hay] for two strings: [needle] occurs as a contiguous
    substring of [hay]. *)
Fixpoint str_in (needle hay : string) : bool :=
  String.prefix needle hay
  || match hay with
     | EmptyString => false
     | String _ rest => str_in needle rest
     end.

(** The values the local [nanotec_vcp] of [select_bus] takes: it starts
    as the empty string and is rebound to an integer index. *)
Inductive value : Type :=
| Str (s : string)
| Int (n : Z).

(** [a == b]: a string and an integer never compare equal. *)
Definition eqb (a b : value) : bool :=
  match a, b with
  | Str s, Str t => String.eqb s t
  | Int n, Int m => Z.eqb n m
  | _, _ => false
  end.

(** The exceptions the modelled code can raise, each with its message. *)
Inductive exn : Type :=
| Exception (msg : string)
| AttributeError (msg : string).

Definition message (e : exn) : string :=
  match e with
  | Exception msg => msg
  | AttributeError msg => msg
  end.

(** [str(n)] of an integer: its decimal digits. *)
Definition str (n : Z) : string := pretty n.

(** Binary digits of a positive number, most significant first. *)
Fixpoint bits (p : positive) : string :=
  match p with
  | xH => "1"
  | xO q => bits q +:+ "0"
  | xI q => bits q +:+ "1"
  end.

(** [format(n, 'b')], the conversion behind [f"{n:b}"]. *)
Definition format_b (n : Z) : string :=
  match n with
  | Z0 => "0"
  | Zpos p => bits p
  | Zneg p => "-" +:+ bits p
  end.

(** The line feed written [\n] in the source's string literals. *)
Definition nl : string := String (Ascii.ascii_of_nat 10) EmptyString.

End Py.

(** ** [decode_status] (lines 399-432) *)

(** The dict literal bound to the local [state]. *)
Definition state : gmap string (list Z) :=
  list_to_map
    [ ("Not ready to switch on", [0; 16; 32; 48; 128; 160; 144; 176]);
      ("Switch on disabled", [64; 80; 96; 112; 192; 208; 224; 240]);
      ("Ready to switch on", [33; 49; 161; 177]);
      ("Switched on", [35; 51; 163; 179]);
      ("Operation Enabled", [39; 55; 167; 183]);
      ("Quick stop active", [7; 23; 135; 151]);
      ("Fault reaction active", [15; 31; 47; 63; 143; 159; 175; 191]);
      ("Fault", [8; 24; 40; 56; 136; 152; 168; 184]) ].

(** The mask [0b0000000011111111]. *)
Definition filter : Z := 255.

(** The if/elif chain, one subscript [state[key]] and one membership test
    per branch, on the masked word. *)
Definition decode_status (status_word : Z) : string :=
  let status_word := Z.land status_word filter in
  if Py.int_in status_word (state !!! "Not ready to switch on")
  then "Not ready to switch on"
  else if Py.int_in status_word (state !!! "Switch on disabled")
  then "Switch on disabled"
  else if Py.int_in status_word (state !!! "Ready to switch on")
  then "Ready to switch on"
  else if Py.int_in status_word (state !!! "Switched on")
  then "Switched on"
  else if Py.int_in status_word (state !!! "Operation Enabled")
  then "Operation Enabled"
  else if Py.int_in status_word (state !!! "Quick stop active")
  then "Quick stop active"
  else if Py.int_in status_word (state !!! "Fault reaction active")
  then "Fault reaction active"
  else if Py.int_in status_word (state !!! "Fault")
  then "Fault"
  else "Cannot determine controller state".

(** ** [decode_mode] (lines 434-457) *)

Definition decode_mode (mode : Z) : string :=
  if (mode =? -2)%Z then "Auto setup"
  else if (mode =? -1)%Z then "Clock-direction mode"
  else if (mode =? 0)%Z then "No mode change/no mode assigned"
  else if (mode =? 1)%Z then "Profile Position Mode"
  else if (mode =? 2)%Z then "Velocity Mode"
  else if (mode =? 3)%Z then "Profile Velocity Mode"
  else if (mode =? 4)%Z then "Profile Torque Mode"
  else if (mode =? 5)%Z then "Reserved"
  else if (mode =? 6)%Z then "Homing Mode"
  else "Error not able to determine mode".

(** ** [select_bus] (lines 131-143) *)

(** What the script reads of a [Nanolib.BusHardwareId]. *)
Record BusHardwareId : Type := {
  getName : string;
  getProtocol : string;
  getBusHardware : string
}.

(** One turn of the [for] loop on the pair of locals [(i, nanotec_vcp)]. *)
Definition select_bus_step (acc : Z * Py.value) (bus_hardware : BusHardwareId)
  : Z * Py.value :=
  let '(i, nanotec_vcp) := acc in
  let nanotec_vcp :=
    if Py.str_in "Nanotec VCP" (getName bus_hardware) then Py.Int i
    else nanotec_vcp in
  (i + 1, nanotec_vcp).

Definition select_bus (bus_hardwares : list BusHardwareId) : Py.exn + Py.value :=
  let '(_, nanotec_vcp) :=
    fold_left select_bus_step bus_hardwares (0, Py.Str "") in
  if Py.eqb nanotec_vcp (Py.Str "")
  then inl (Py.Exception "No USB Nanotec Controller Found")
  else inr nanotec_vcp.

(** ** The vendor accessor *)

(** A [Nanolib.DeviceHandle] is opaque to the script. *)
Definition DeviceHandle : Type := Z.

(** [Nanolib.OdIndex(index, sub_index)]. *)
Record OdIndex : Type := mkOdIndex {
  getIndex : Z;
  getSubIndex : Z
}.

#[export] Instance OdIndex_eq_dec : EqDecision OdIndex.
Proof. solve_decision. Defined.

(** What the script reads of the result object of an accessor call:
    [hasError()], [getResult()] (meaningless for a void result) and
    [getError()]. *)
Record NlcResult : Type := {
  hasError : bool;
  getResult : Z;
  getError : string
}.

(** The two accessor methods the register accessors call. *)
Inductive AccessorCall : Type :=
| readNumber (device_handle : DeviceHandle) (od_index : OdIndex)
| writeNumber (device_handle : DeviceHandle) (value : Z) (od_index : OdIndex)
    (bit_length : Z).

(** What a run does that can be observed from outside. *)
Inductive Event : Type :=
| Called (c : AccessorCall)
| Slept (secs : Z)
| Printed (line : string).

(** A script is a finite tree: it returns, raises, or performs one effect
    and goes on; after an accessor call it goes on with the result object
    the accessor handed back. *)
Inductive Script (A : Type) : Type :=
| Ret (a : A)
| Raise (e : Py.exn)
| Accessor (c : AccessorCall) (k : NlcResult -> Script A)
| Sleep (secs : Z) (k : Script A)
| Print (line : string) (k : Script A).

Arguments Ret {A} a.
Arguments Raise {A} e.
Arguments Accessor {A} c k.
Arguments Sleep {A} secs k.
Arguments Print {A} line k.

(** Sequencing: an exception cuts off everything that follows. *)
Fixpoint Script_bind {A B : Type} (f : A -> Script B) (p : Script A) : Script B :=
  match p with
  | Ret a => f a
  | Raise e => Raise e
  | Accessor c k => Accessor c (fun r => Script_bind f (k r))
  | Sleep secs k => Sleep secs (Script_bind f k)
  | Print line k => Print line (Script_bind f k)
  end.

#[export] Instance Script_mret : MRet Script := @Ret.
#[export] Instance Script_mbind : MBind Script := @Script_bind.

Definition nanolib_accessor (c : AccessorCall) : Script NlcResult := Accessor c Ret.
Definition sleep (secs : Z) : Script unit := Sleep secs (Ret tt).
Definition print (line : string) : Script unit := Print line (Ret tt).

(** The accessor as the script meets it: [gw n] is the result object handed
    back by accessor call number [n] of the run, counted from 0. *)
Definition Gateway : Type := nat -> NlcResult.

(** Running a script that has already made [n] accessor calls: the events in
    the order they happen, and how the script ends. *)
Fixpoint exec {A : Type} (gw : Gateway) (n : nat) (p : Script A)
  : list Event * (Py.exn + A) :=
  match p with
  | Ret a => ([], inr a)
  | Raise e => ([], inl e)
  | Accessor c k =>
      let '(t, o) := exec gw (S n) (k (gw n)) in (Called c :: t, o)
  | Sleep secs k =>
      let '(t, o) := exec gw n k in (Slept secs :: t, o)
  | Print line k =>
      let '(t, o) := exec gw n k in (Printed line :: t, o)
  end.

(** ** [read_number] and [write_number] (lines 306-348) *)

(** The names bound by the body of [class NanoLibController] (lines 57-457);
    the class has no base class and defines no [__getattr__]. *)
Definition NanoLibController_names : list string :=
  [ "__init__"; "setup"; "set_logging_level"; "get_bus_hardware";
    "select_bus"; "bus_hardware_options"; "open_bus_hardware";
    "close_bus_hardware"; "scan_bus"; "create_device"; "connect_device";
    "disconnect_device"; "read_number"; "write_number"; "read_array";
    "read_string"; "decode_status"; "decode_mode" ].

(** The attributes set on the instance itself, by [__init__] and by
    [get_bus_hardware]. *)
Definition instance_names : list string := [ "nanolib_accessor"; "nanotec_vcp" ].

(** What the attribute load [self.create_error_message] evaluates to in
    [raise Exception(self.create_error_message(...))]: the name is bound
    neither on the instance nor in the class, so the load itself raises,
    before the call and before [Exception] is built. *)
Definition self_create_error_message : Py.exn :=
  Py.AttributeError
    "'NanoLibController' object has no attribute 'create_error_message'".

Definition read_number (device_handle : DeviceHandle) (od_index : OdIndex)
  : Script Z :=
  result ← nanolib_accessor (readNumber device_handle od_index);
  if hasError result then Raise self_create_error_message
  else mret (getResult result).

Definition write_number (device_handle : DeviceHandle) (value : Z)
    (od_index : OdIndex) (bit_length : Z) : Script unit :=
  result ← nanolib_accessor (writeNumber device_handle value od_index bit_length);
  if hasError result then Raise self_create_error_message
  else mret tt.

(** ** The enable-and-move part of [__main__] (lines 478-534) *)

(** The [for x in range(4)] loop with its counter [count]; [times] is the
    number of turns still to run. *)
Fixpoint move_loop (device_handle : DeviceHandle) (times : nat) (count : Z)
  : Script Z :=
  match times with
  | O => mret count
  | S times =>
      write_number device_handle 1000 (mkOdIndex 0x607A 0x00) 32;;
      write_number device_handle 31 (* 0b11111 *) (mkOdIndex 0x6040 0x00) 16;;
      write_number device_handle 15 (* 0b1111 *) (mkOdIndex 0x6040 0x00) 16;;
      sleep 2;;
      write_number device_handle 0 (mkOdIndex 0x607A 0x00) 32;;
      write_number device_handle 31 (* 0b11111 *) (mkOdIndex 0x6040 0x00) 16;;
      write_number device_handle 15 (* 0b1111 *) (mkOdIndex 0x6040 0x00) 16;;
      sleep 2;;
      print (Py.str count);;
      move_loop device_handle times (count + 1)
  end.

(** Lines 478-509: status read, mode selection and the 6, 7, 15 handshake. *)
Definition enable_handshake (device_handle : DeviceHandle) : Script unit :=
  status_word ← read_number device_handle (mkOdIndex 0x6041 0x00);
  let state := decode_status status_word in
  print (Py.nl +:+ "Current controller state: " +:+ state);;
  write_number device_handle 1 (mkOdIndex 0x6060 0x00) 8;;
  mode ← read_number device_handle (mkOdIndex 0x6061 0x00);
  let mode := decode_mode mode in
  print ("Controller mode: " +:+ mode);;
  control_word ← read_number device_handle (mkOdIndex 0x6040 0x00);
  print (Py.str control_word);;
  print (Py.format_b control_word);;
  write_number device_handle 6 (mkOdIndex 0x6040 0x00) 16;;
  sleep 2;;
  write_number device_handle 7 (mkOdIndex 0x6040 0x00) 16;;
  sleep 2;;
  write_number device_handle 15 (mkOdIndex 0x6040 0x00) 16;;
  control_word ← read_number device_handle (mkOdIndex 0x6040 0x00);
  print (Py.str control_word);;
  print (Py.format_b control_word);;
  status_word ← read_number device_handle (mkOdIndex 0x6041 0x00);
  print (Py.format_b status_word);;
  let state := decode_status status_word in
  print (Py.nl +:+ "Current controller state: " +:+ state).

(** Lines 478-534 as one script, from the first status read to the end of
    the loop. *)
Definition main_sequence (device_handle : DeviceHandle) : Script unit :=
  enable_handshake device_handle;;
  let count := 1 in
  move_loop device_handle 4 count;;
  mret tt.

(** ** The specification's tables (section 3, 4.1 and 4.2 of the spec) *)

(** The drive states of the specification and the string the code returns
    for each of them. *)
Inductive DriveState : Type :=
| NotReadyToSwitchOn | SwitchOnDisabled | ReadyToSwitchOn | SwitchedOn
| OperationEnabled | QuickStopActive | FaultReactionActive | Fault
| UnknownState.

#[export] Instance DriveState_eq_dec : EqDecision DriveState.
Proof. solve_decision. Defined.

Definition DriveState_label (s : DriveState) : string :=
  match s with
  | NotReadyToSwitchOn => "Not ready to switch on"
  | SwitchOnDisabled => "Switch on disabled"
  | ReadyToSwitchOn => "Ready to switch on"
  | SwitchedOn => "Switched on"
  | OperationEnabled => "Operation Enabled"
  | QuickStopActive => "Quick stop active"
  | FaultReactionActive => "Fault reaction active"
  | Fault => "Fault"
  | UnknownState => "Cannot determine controller state"
  end.

(** The table of section 4.1, row by row as the specification prints it. *)
Definition spec_status_table : list (DriveState * list Z) :=
  [ (NotReadyToSwitchOn, [0; 16; 32; 48; 128; 160; 144; 176]);
    (SwitchOnDisabled, [64; 80; 96; 112; 192; 208; 224; 240]);
    (ReadyToSwitchOn, [33; 49; 161; 177]);
    (SwitchedOn, [35; 51; 163; 179]);
    (OperationEnabled, [39; 55; 167; 183]);
    (QuickStopActive, [7; 23; 135; 151]);
    (FaultReactionActive, [15; 31; 47; 63; 143; 159; 175; 191]);
    (Fault, [8; 24; 40; 56; 136; 152; 168; 184]) ].

(** The operating modes of the specification and the code's strings. *)
Inductive OperatingMode : Type :=
| AutoSetup | ClockDirection | NoChange | ProfilePosition | Velocity
| ProfileVelocity | ProfileTorque | Reserved | Homing | UnknownMode.

#[export] Instance OperatingMode_eq_dec : EqDecision OperatingMode.
Proof. solve_decision. Defined.

Definition OperatingMode_label (m : OperatingMode) : string :=
  match m with
  | AutoSetup => "Auto setup"
  | ClockDirection => "Clock-direction mode"
  | NoChange => "No mode change/no mode assigned"
  | ProfilePosition => "Profile Position Mode"
  | Velocity => "Velocity Mode"
  | ProfileVelocity => "Profile Velocity Mode"
  | ProfileTorque => "Profile Torque Mode"
  | Reserved => "Reserved"
  | Homing => "Homing Mode"
  | UnknownMode => "Error not able to determine mode"
  end.

(** The mode codes the specification lists, each with its mode. *)
Definition spec_mode_table : list (Z * OperatingMode) :=
  [ (-2, AutoSetup); (-1, ClockDirection); (0, NoChange);
    (1, ProfilePosition); (2, Velocity); (3, ProfileVelocity);
    (4, ProfileTorque); (5, Reserved); (6, Homing) ].

(** ** Vocabulary of the statements *)

(** The rows of [state] in the order in which [decode_status] tests them. *)
Definition status_rows : list (string * list Z) :=
  map (fun key => (key, state !!! key))
    [ "Not ready to switch on"; "Switch on disabled"; "Ready to switch on";
      "Switched on"; "Operation Enabled"; "Quick stop active";
      "Fault reaction active"; "Fault" ].

(** Testing rows one after the other, in the order of the list. *)
Fixpoint first_match (rows : list (string * list Z)) (x : Z) : string :=
  match rows with
  | [] => "Cannot determine controller state"
  | (label, values) :: rows =>
      if Py.int_in x values then label else first_match rows x
  end.

(** [needle] occurs in [hay]. *)
Definition substring (needle hay : string) : Prop :=
  exists before after, hay = before +:+ needle +:+ after.

(** The registers the script addresses. *)
Definition statusword : OdIndex := mkOdIndex 0x6041 0x00.
Definition controlword : OdIndex := mkOdIndex 0x6040 0x00.
Definition modes_of_operation : OdIndex := mkOdIndex 0x6060 0x00.
Definition target_position : OdIndex := mkOdIndex 0x607A 0x00.

(** A gateway none of whose calls reports an error. *)
Definition always_succeeds (gw : Gateway) : Prop :=
  forall n, hasError (gw n) = false.

(** The number of accessor calls in a trace. *)
Fixpoint calls (t : list Event) : nat :=
  match t with
  | [] => O
  | Called _ :: t => S (calls t)
  | _ :: t => calls t
  end.

(** The register writes of a trace, in order: value, address, bit length. *)
Fixpoint writes (t : list Event) : list (Z * OdIndex * Z) :=
  match t with
  | [] => []
  | Called (writeNumber _ value od_index bit_length) :: t =>
      (value, od_index, bit_length) :: writes t
  | _ :: t => writes t
  end.

(** The values written to the controlword, in order. *)
Fixpoint controlword_writes (ws : list (Z * OdIndex * Z)) : list Z :=
  match ws with
  | [] => []
  | (value, od_index, _) :: ws =>
      if bool_decide (od_index = controlword)
      then value :: controlword_writes ws
      else controlword_writes ws
  end.

(** One half of a turn of the loop: the target, the two controlword writes
    that toggle bit 4, and the wait. *)
Definition half_cycle (h : DeviceHandle) (target : Z) : list Event :=
  [ Called (writeNumber h target target_position 32);
    Called (writeNumber h 31 controlword 16);
    Called (writeNumber h 15 controlword 16);
    Slept 2 ].

(** One full turn: out to 1000, back to 0, and the counter printed. *)
Definition cycle (h : DeviceHandle) (count : Z) : list Event :=
  half_cycle h 1000 ++ half_cycle h 0 ++ [ Printed (Py.str count) ].

(** The counter values of [times] turns starting at [count]. *)
Fixpoint counts (times : nat) (count : Z) : list Z :=
  match times with
  | O => []
  | S times => count :: counts times (count + 1)
  end.

(** A script in which every accessor call that reports an error is followed
    by nothing but a raise. *)
Inductive fail_fast {A : Type} : Script A -> Prop :=
| ff_Ret a : fail_fast (Ret a)
| ff_Raise e : fail_fast (Raise e)
| ff_Accessor c k :
    (forall r, hasError r = true -> exists e, k r = Raise e) ->
    (forall r, fail_fast (k r)) ->
    fail_fast (Accessor c k)
| ff_Sleep secs k : fail_fast k -> fail_fast (Sleep secs k)
| ff_Print line k : fail_fast k -> fail_fast (Print line k).

(** The writes of lines 488-501: the mode, then the three controlwords. *)
Definition handshake_writes : list (Z * OdIndex * Z) :=
  [ (1, modes_of_operation, 8); (6, controlword, 16); (7, controlword, 16);
    (15, controlword, 16) ].

(** The events of lines 478-509 when no call fails, given the values of
    the five reads in the order they are made. *)
Definition handshake_trace (h : DeviceHandle)
    (status0 mode control0 control1 status1 : Z) : list Event :=
  [ Called (readNumber h statusword);
    Printed (Py.nl +:+ "Current controller state: " +:+ decode_status status0);
    Called (writeNumber h 1 modes_of_operation 8);
    Called (readNumber h (mkOdIndex 0x6061 0x00));
    Printed ("Controller mode: " +:+ decode_mode mode);
    Called (readNumber h controlword);
    Printed (Py.str control0);
    Printed (Py.format_b control0);
    Called (writeNumber h 6 controlword 16);
    Slept 2;
    Called (writeNumber h 7 controlword 16);
    Slept 2;
    Called (writeNumber h 15 controlword 16);
    Called (readNumber h controlword);
    Printed (Py.str control1);
    Printed (Py.format_b control1);
    Called (readNumber h statusword);
    Printed (Py.format_b status1);
    Printed (Py.nl +:+ "Current controller state: " +:+ decode_status status1) ].

(** The writes of one turn of the loop (lines 525-531). *)
Definition cycle_writes : list (Z * OdIndex * Z) :=
  [ (1000, target_position, 32); (31, controlword, 16); (15, controlword, 16);
    (0, target_position, 32); (31, controlword, 16); (15, controlword, 16) ].

(** The gateway [gw] with the error flag of every result cleared. *)
Definition cleared (gw : Gateway) : Gateway :=
  fun n =>
    {| hasError := false; getResult := getResult (gw n);
       getError := getError (gw n) |}.

(** Gateway stubs for the examples. *)
Definition ok (v : Z) : NlcResult :=
  {| hasError := false; getResult := v; getError := "" |}.

Definition failed (msg : string) : NlcResult :=
  {| hasError := true; getResult := 0; getError := msg |}.

(** Every call succeeds and every read returns 39. *)
Definition stub_ok : Gateway := fun _ => ok 39.

(** As [stub_ok], but the first read, of the status word, returns 8. *)
Definition stub_fault_first : Gateway :=
  fun n => if (n =? 0)%nat then ok 8 else ok 39.

(** Call number 5 of the run, the write of controlword = 7, fails. *)
Definition stub_fail_cw7 : Gateway :=
  fun n => if (n =? 5)%nat then failed "timeout" else ok 39.

(** ** Vocabulary of the further properties *)

(** Decoding by mask and compare on the bits 0-3, 5 and 6 of the status
    word, as the state table of the drive profile is usually written. *)
Definition mask_decode (status_word : Z) : string :=
  if (Z.land status_word 0x4F =? 0x00)%Z then "Not ready to switch on"
  else if (Z.land status_word 0x4F =? 0x40)%Z then "Switch on disabled"
  else if (Z.land status_word 0x6F =? 0x21)%Z then "Ready to switch on"
  else if (Z.land status_word 0x6F =? 0x23)%Z then "Switched on"
  else if (Z.land status_word 0x6F =? 0x27)%Z then "Operation Enabled"
  else if (Z.land status_word 0x6F =? 0x07)%Z then "Quick stop active"
  else if (Z.land status_word 0x4F =? 0x0F)%Z then "Fault reaction active"
  else if (Z.land status_word 0x4F =? 0x08)%Z then "Fault"
  else "Cannot determine controller state".

(** The numbers 0 .. 255. *)
Definition bytes : list Z := map Z.of_nat (seq 0 256).

(** What a run does to the device and to the clock: its trace without the
    printed lines. *)
Fixpoint device_events (t : list Event) : list Event :=
  match t with
  | [] => []
  | Printed _ :: t => device_events t
  | ev :: t => ev :: device_events t
  end.

(** The seconds a run spends waiting. *)
Fixpoint waited (t : list Event) : Z :=
  match t with
  | [] => 0
  | Slept secs :: t => secs + waited t
  | _ :: t => waited t
  end.

(** Two scripts that make the same calls and waits as long as the results
    they are handed carry the same error flag, whatever the values read and
    the lines printed. *)
Inductive alike {A B : Type} : Script A -> Script B -> Prop :=
| alike_Ret a b : alike (Ret a) (Ret b)
| alike_Raise e : alike (Raise e) (Raise e)
| alike_Accessor c k k' :
    (forall r r', hasError r = hasError r' -> alike (k r) (k' r')) ->
    alike (Accessor c k) (Accessor c k')
| alike_Sleep secs k k' : alike k k' -> alike (Sleep secs k) (Sleep secs k')
| alike_Print line line' k k' :
    alike k k' -> alike (Print line k) (Print line' k').

(** How a run ends, the value returned left out. *)
Definition ending {A : Type} (o : Py.exn + A) : option Py.exn :=
  match o with
  | inl e => Some e
  | inr _ => None
  end.

(** As [stub_ok], with other values on every read. *)
Definition stub_other_values : Gateway := fun n => ok (Z.of_nat n + 100).

(** The number of accessor calls of a run of the sequence that no error
    cuts short: five reads and twenty-eight writes. *)
Definition main_sequence_calls : nat := 33.

(** A script all of whose raises raise [e]. *)
Inductive raises_only {A : Type} (e : Py.exn) : Script A -> Prop :=
| ro_Ret a : raises_only e (Ret a)
| ro_Raise : raises_only e (Raise e)
| ro_Accessor c k :
    (forall r, raises_only e (k r)) -> raises_only e (Accessor c k)
| ro_Sleep secs k : raises_only e k -> raises_only e (Sleep secs k)
| ro_Print line k : raises_only e k -> raises_only e (Print line k).

(** ** The rest of the class and of [__main__] *)

(** The constants of the vendor module [Nanolib] that the source names.
    The module is not part of the repository: they are parameters, and only
    their equality is used. *)
Record NanolibConstants : Type := {
  LogLevel_Info : Z;
  BusScanInfo_Start : Z;
  BusScanInfo_Progress : Z;
  BusScanInfo_Finished : Z;
  BUS_HARDWARE_ID_PROTOCOL_CANOPEN : string;
  BUS_HARDWARE_ID_PROTOCOL_MODBUS_RTU : string;
  BUS_HARDWARE_ID_PROTOCOL_MODBUS_VCP : string;
  BUS_HARDWARE_ID_PROTOCOL_MODBUS_TCP : string;
  BUS_HARDWARE_ID_IXXAT : string;
  CanBus_BAUD_RATE_OPTIONS_NAME : string;
  CanBaudRate_BAUD_RATE_1000K : string;
  Ixxat_ADAPTER_BUS_NUMBER_OPTIONS_NAME : string;
  IxxatAdapterBusNumber_BUS_NUMBER_0_DEFAULT : string;
  Serial_BAUD_RATE_OPTIONS_NAME : string;
  SerialBaudRate_BAUD_RATE_19200 : string;
  Serial_PARITY_OPTIONS_NAME : string;
  SerialParity_EVEN : string
}.

(** What the script reads of a [Nanolib.DeviceId]. *)
Record DeviceId : Type := { toString : string }.

(** A [Nanolib.BusHardwareOptions]: the options added, in the order of the
    [addOption] calls. *)
Definition BusHardwareOptions : Type := list (string * string).

(** One call of [ScanBusCallback.callback] by the library:
    [(info, devicesFound, data)]. *)
Definition Notification : Type := Z * list DeviceId * Z.

(** The methods of the accessor that the class calls. *)
Inductive LibCall : Type :=
| setLoggingLevel (log_level : Z)
| listAvailableBusHardware
| openBusHardwareWithProtocol (bus_hw_id : BusHardwareId)
    (bus_hw_options : BusHardwareOptions)
| closeBusHardware (bus_hw_id : BusHardwareId)
| scanDevices (bus_hw_id : BusHardwareId)
| addDevice (device_id : DeviceId)
| connectDevice (device_handle : DeviceHandle)
| disconnectDevice (device_handle : DeviceHandle)
| readNumberArray (device_handle : DeviceHandle) (index : Z)
| readString (device_handle : DeviceHandle) (od_index : OdIndex)
| numberAccess (c : AccessorCall).

(** What the class reads of the object an accessor call hands back:
    [hasError()], [getError()], and [getResult()] at the type the call
    returns.  For [scanDevices] it also holds the calls of the scan callback
    that the library made while scanning. *)
Record Answer : Type := {
  ans_hasError : bool;
  ans_getError : string;
  ans_hardware : list BusHardwareId;
  ans_notifications : list Notification;
  ans_devices : list DeviceId;
  ans_handle : DeviceHandle;
  ans_number : Z;
  ans_string : string;
  ans_array : list Z
}.

(** How a session can fail: an exception the code raises, or an index or
    type error of a subscript. *)
Inductive Failure : Type :=
| Raised (e : Py.exn)
| IndexError
| TypeError.

(** What a session does that can be observed from outside; [Wrote text] is
    the text written to the standard output, line ends included. *)
Inductive Item : Type :=
| Invoked (c : LibCall)
| Paused (secs : Z)
| Wrote (text : string).

(** Sessions: scripts over all the accessor's methods. *)
Inductive Session (A : Type) : Type :=
| Done (a : A)
| Fail (f : Failure)
| Lib (c : LibCall) (k : Answer -> Session A)
| Pause (secs : Z) (k : Session A)
| Write (text : string) (k : Session A).

Arguments Done {A} a.
Arguments Fail {A} f.
Arguments Lib {A} c k.
Arguments Pause {A} secs k.
Arguments Write {A} text k.

Fixpoint Session_bind {A B : Type} (f : A -> Session B) (s : Session A)
  : Session B :=
  match s with
  | Done a => f a
  | Fail e => Fail e
  | Lib c k => Lib c (fun r => Session_bind f (k r))
  | Pause secs k => Pause secs (Session_bind f k)
  | Write text k => Write text (Session_bind f k)
  end.

#[export] Instance Session_mret : MRet Session := @Done.
#[export] Instance Session_mbind : MBind Session := @Session_bind.

Definition lib (c : LibCall) : Session Answer := Lib c Done.

(** [print(line)] and [print(text, end='', flush=True)]. *)
Definition print_line (line : string) : Session unit :=
  Write (line +:+ Py.nl) (Done tt).
Definition print_flush (text : string) : Session unit := Write text (Done tt).

Definition raise {A : Type} (e : Py.exn) : Session A := Fail (Raised e).

(** The library as a session meets it: [library n] is what accessor call
    number [n] of the run hands back. *)
Definition Library : Type := nat -> Answer.

Fixpoint run {A : Type} (library : Library) (n : nat) (s : Session A)
  : list Item * (Failure + A) :=
  match s with
  | Done a => ([], inr a)
  | Fail f => ([], inl f)
  | Lib c k =>
      let '(t, o) := run library (S n) (k (library n)) in (Invoked c :: t, o)
  | Pause secs k =>
      let '(t, o) := run library n k in (Paused secs :: t, o)
  | Write text k =>
      let '(t, o) := run library n k in (Wrote text :: t, o)
  end.

(** The result object of a [readNumber] or [writeNumber] call. *)
Definition number_result (r : Answer) : NlcResult :=
  {| hasError := ans_hasError r; getResult := ans_number r;
     getError := ans_getError r |}.

(** A script of register accesses as a session. *)
Fixpoint lift {A : Type} (p : Script A) : Session A :=
  match p with
  | Ret a => Done a
  | Raise e => Fail (Raised e)
  | Accessor c k => Lib (numberAccess c) (fun r => lift (k (number_result r)))
  | Sleep secs k => Pause secs (lift k)
  | Print line k => Write (line +:+ Py.nl) (lift k)
  end.

(** *** [ScanBusCallback.callback] (lines 41-50) *)

Definition callback (N : NanolibConstants) (notification : Notification)
  : Session unit :=
  let '(info, devicesFound, data) := notification in
  if (info =? BusScanInfo_Start N)%Z then print_line "Scanning bus."
  else if (info =? BusScanInfo_Progress N)%Z then
    if (Z.land data 1 =? 0)%Z then print_flush "." else mret tt
  else if (info =? BusScanInfo_Finished N)%Z then
    print_line (Py.nl +:+ "Scan finished.")
  else mret tt.

(** The calls of the callback that the library makes during one scan. *)
Fixpoint callbacks (N : NanolibConstants) (l : list Notification)
  : Session unit :=
  match l with
  | [] => mret tt
  | notification :: l => callback N notification;; callbacks N l
  end.

(** *** [set_logging_level] and [setup] (lines 75-96) *)

(** [accessor] is the value bound to [self.nanolib_accessor] by [__init__]:
    [None] or an accessor. *)
Definition set_logging_level (accessor : option unit) (log_level : Z)
  : Session unit :=
  match accessor with
  | None => raise (Py.Exception "Error: NanolibHelper().setup() is required")
  | Some _ => lib (setLoggingLevel log_level);; mret tt
  end.

Definition setup (N : NanolibConstants) (accessor : option unit) : Session unit :=
  set_logging_level accessor (LogLevel_Info N).

(** *** [get_bus_hardware] (lines 98-129) *)

(** The [for] loop on the locals [line_num] and on the attribute
    [self.nanotec_vcp] ([None] while it is unbound). *)
Fixpoint get_bus_hardware_loop (l : list BusHardwareId) (line_num : Z)
    (nanotec_vcp : option Z) : Session (option Z) :=
  match l with
  | [] => mret nanotec_vcp
  | bus_hardware_id :: l =>
      print_line (Py.str line_num +:+ ". " +:+ getName bus_hardware_id
                  +:+ " with protocol: " +:+ getProtocol bus_hardware_id);;
      let nanotec_vcp :=
        if String.eqb (getName bus_hardware_id) "Nanotec VCP"
        then Some line_num else nanotec_vcp in
      get_bus_hardware_loop l (line_num + 1) nanotec_vcp
  end.

(** Returns the attribute [self.nanotec_vcp] as the method leaves it, and
    the list the method returns. *)
Definition get_bus_hardware : Session (option Z * list BusHardwareId) :=
  bus_hardware ← lib listAvailableBusHardware;
  if ans_hasError bus_hardware then
    raise (Py.Exception ("Error: listAvailableBusHardware() - "
                         +:+ ans_getError bus_hardware))
  else if bool_decide (ans_hardware bus_hardware = []) then
    raise (Py.Exception "No bus hardware found.")
  else
    print_line (Py.nl +:+ "Available bus hardware:" +:+ Py.nl);;
    nanotec_vcp ← get_bus_hardware_loop (ans_hardware bus_hardware) 0 None;
    mret (nanotec_vcp, ans_hardware bus_hardware).

(** *** [bus_hardware_options] (lines 145-197) *)

Definition selected_line (bus_hw_id : BusHardwareId) : string :=
  Py.nl +:+ "Selected bus hardware is  " +:+ getName bus_hw_id
  +:+ " with protocol: " +:+ getProtocol bus_hw_id.

Definition bus_hardware_options (N : NanolibConstants) (bus_hw_id : BusHardwareId)
  : Session BusHardwareOptions :=
  let bus_hardware_option : BusHardwareOptions := [] in
  if String.eqb (getProtocol bus_hw_id) (BUS_HARDWARE_ID_PROTOCOL_CANOPEN N)
  then
    let bus_hardware_option :=
      (bus_hardware_option
       ++ [(CanBus_BAUD_RATE_OPTIONS_NAME N, CanBaudRate_BAUD_RATE_1000K N)])%list in
    let bus_hardware_option :=
      if String.eqb (getBusHardware bus_hw_id) (BUS_HARDWARE_ID_IXXAT N)
      then (bus_hardware_option
            ++ [(Ixxat_ADAPTER_BUS_NUMBER_OPTIONS_NAME N,
                 IxxatAdapterBusNumber_BUS_NUMBER_0_DEFAULT N)])%list
      else bus_hardware_option in
    print_line (selected_line bus_hw_id);;
    mret bus_hardware_option
  else if String.eqb (getProtocol bus_hw_id)
            (BUS_HARDWARE_ID_PROTOCOL_MODBUS_RTU N)
  then
    let bus_hardware_option :=
      (bus_hardware_option
       ++ [(Serial_BAUD_RATE_OPTIONS_NAME N, SerialBaudRate_BAUD_RATE_19200 N)])%list in
    let bus_hardware_option :=
      (bus_hardware_option
       ++ [(Serial_PARITY_OPTIONS_NAME N, SerialParity_EVEN N)])%list in
    print_line (selected_line bus_hw_id);;
    mret bus_hardware_option
  else if String.eqb (getProtocol bus_hw_id)
            (BUS_HARDWARE_ID_PROTOCOL_MODBUS_VCP N)
          || String.eqb (getProtocol bus_hw_id)
               (BUS_HARDWARE_ID_PROTOCOL_MODBUS_TCP N)
  then
    print_line (selected_line bus_hw_id);;
    mret bus_hardware_option
  else raise (Py.Exception "Error: unknown protocol").

(** *** Bus and device life cycle (lines 199-304) *)

Definition open_bus_hardware (bus_hw_id : BusHardwareId)
    (bus_hw_options : BusHardwareOptions) : Session unit :=
  result ← lib (openBusHardwareWithProtocol bus_hw_id bus_hw_options);
  if ans_hasError result then
    raise (Py.Exception ("Error: openBusHardwareWithProtocol() - "
                         +:+ ans_getError result))
  else mret tt.

Definition close_bus_hardware (bus_hw_id : BusHardwareId) : Session unit :=
  result ← lib (closeBusHardware bus_hw_id);
  if ans_hasError result then
    raise (Py.Exception ("Error: closeBusHardware() - " +:+ ans_getError result))
  else mret tt.

(** Python's [l[i]] for an integer [i]: negative indices count from the
    end, anything out of range has no element. *)
Definition subscript {A : Type} (l : list A) (i : Z) : option A :=
  if (0 <=? i)%Z then l !! Z.to_nat i
  else if (- Z.of_nat (length l) <=? i)%Z then l !! Z.to_nat (Z.of_nat (length l) + i)
  else None.

(** [l[key]] as an expression of a session. *)
Definition getitem {A : Type} (l : list A) (key : Py.value) : Session A :=
  match key with
  | Py.Int i =>
      match subscript l i with
      | Some a => mret a
      | None => Fail IndexError
      end
  | Py.Str _ => Fail TypeError
  end.

Definition scan_bus (N : NanolibConstants) (bus_hw_id : BusHardwareId)
  : Session (list DeviceId) :=
  result ← lib (scanDevices bus_hw_id);
  callbacks N (ans_notifications result);;
  if ans_hasError result then
    raise (Py.Exception ("Error: scanDevices() - " +:+ ans_getError result))
  else if (Z.of_nat (length (ans_devices result)) =? 0)%Z then
    raise (Py.Exception "No devices found.")
  else
    first ← getitem (ans_devices result) (Py.Int 0);
    print_line ("Found Device: " +:+ toString first);;
    mret (ans_devices result).

Definition create_device (device_id : DeviceId) : Session DeviceHandle :=
  result ← lib (addDevice device_id);
  let device_handle := ans_handle result in
  mret device_handle.

Definition connect_device (device_handle : DeviceHandle) : Session unit :=
  result ← lib (connectDevice device_handle);
  print_line "Now connected";;
  if ans_hasError result then
    raise (Py.Exception ("Error: connectDevice() - " +:+ ans_getError result))
  else mret tt.

Definition disconnect_device (device_handle : DeviceHandle) : Session unit :=
  result ← lib (disconnectDevice device_handle);
  if ans_hasError result then
    raise (Py.Exception ("Error: disconnectDevice() - " +:+ ans_getError result))
  else mret tt.

(** *** [read_array] and [read_string] (lines 350-397) *)

Definition read_array (device_handle : DeviceHandle) (od_index : OdIndex)
  : Session (list Z) :=
  result ← lib (readNumberArray device_handle (getIndex od_index));
  if ans_hasError result then raise self_create_error_message
  else mret (ans_array result).

Definition read_string (device_handle : DeviceHandle) (od_index : OdIndex)
  : Session string :=
  result ← lib (readString device_handle od_index);
  if ans_hasError result then raise self_create_error_message
  else mret (ans_string result).

(** *** The [__main__] block (lines 460-575) *)

(** The value or the exception of a call that makes no accessor call. *)
Definition of_result {A : Type} (r : Py.exn + A) : Session A :=
  match r with
  | inl e => raise e
  | inr a => mret a
  end.

(** [accessor] is what [Nanolib.getNanoLibAccessor()] returns to
    [__init__]. *)
Definition main (N : NanolibConstants) (accessor : option unit) : Session unit :=
  setup N accessor;;
  ids ← get_bus_hardware;
  let bus_hardware_ids := ids.2 in
  bus_id ← of_result (select_bus bus_hardware_ids);
  bus_hw_id ← getitem bus_hardware_ids bus_id;
  bus_hw_options ← bus_hardware_options N bus_hw_id;
  bus_hw_id ← getitem bus_hardware_ids bus_id;
  open_bus_hardware bus_hw_id bus_hw_options;;
  bus_hw_id ← getitem bus_hardware_ids bus_id;
  device_ids ← scan_bus N bus_hw_id;
  device_id ← getitem device_ids (Py.Int 0);
  device_handle ← create_device device_id;
  connect_device device_handle;;
  lift (main_sequence device_handle);;
  disconnect_device device_handle;;
  bus_hw_id ← getitem bus_hardware_ids bus_id;
  close_bus_hardware bus_hw_id.

(** *** Vocabulary for sessions *)

(** The accessor calls of a session trace, in order. *)
Fixpoint invocations (t : list Item) : list LibCall :=
  match t with
  | [] => []
  | Invoked c :: t => c :: invocations t
  | _ :: t => invocations t
  end.

(** What a session trace writes to the standard output. *)
Fixpoint output (t : list Item) : string :=
  match t with
  | [] => ""
  | Wrote text :: t => text +:+ output t
  | _ :: t => output t
  end.

(** The register accesses of a script trace, in order. *)
Fixpoint called (t : list Event) : list AccessorCall :=
  match t with
  | [] => []
  | Called c :: t => c :: called t
  | _ :: t => called t
  end.

(** A library seen through its [readNumber] and [writeNumber] results. *)
Definition gateway_of (library : Library) : Gateway :=
  fun n => number_result (library n).

(** An event of a script as an item of a session. *)
Definition item_of (ev : Event) : Item :=
  match ev with
  | Called c => Invoked (numberAccess c)
  | Slept secs => Paused secs
  | Printed line => Wrote (line +:+ Py.nl)
  end.

(** The outcome of a script as the outcome of a session. *)
Definition outcome_of {A : Type} (o : Py.exn + A) : Failure + A :=
  match o with
  | inl e => inl (Raised e)
  | inr a => inr a
  end.

(** The line [get_bus_hardware] prints for entry number [i]. *)
Definition hardware_line (i : Z) (bus_hardware_id : BusHardwareId) : string :=
  (Py.str i +:+ ". " +:+ getName bus_hardware_id
   +:+ " with protocol: " +:+ getProtocol bus_hardware_id) +:+ Py.nl.

(** The lines of the loop of [get_bus_hardware], numbered from [i]. *)
Fixpoint hardware_lines (i : Z) (l : list BusHardwareId) : list Item :=
  match l with
  | [] => []
  | bus_hardware_id :: l =>
      Wrote (hardware_line i bus_hardware_id) :: hardware_lines (i + 1) l
  end.

(** Example constants and answers. *)
Definition stub_constants : NanolibConstants :=
  {| LogLevel_Info := 3;
     BusScanInfo_Start := 0;
     BusScanInfo_Progress := 1;
     BusScanInfo_Finished := 2;
     BUS_HARDWARE_ID_PROTOCOL_CANOPEN := "CANopen";
     BUS_HARDWARE_ID_PROTOCOL_MODBUS_RTU := "MODBUS RTU";
     BUS_HARDWARE_ID_PROTOCOL_MODBUS_VCP := "MODBUS VCP";
     BUS_HARDWARE_ID_PROTOCOL_MODBUS_TCP := "MODBUS TCP";
     BUS_HARDWARE_ID_IXXAT := "IXXAT";
     CanBus_BAUD_RATE_OPTIONS_NAME := "can adapter baud rate";
     CanBaudRate_BAUD_RATE_1000K := "1000K";
     Ixxat_ADAPTER_BUS_NUMBER_OPTIONS_NAME := "ixxat adapter bus number";
     IxxatAdapterBusNumber_BUS_NUMBER_0_DEFAULT := "0";
     Serial_BAUD_RATE_OPTIONS_NAME := "serial baud rate";
     SerialBaudRate_BAUD_RATE_19200 := "19200";
     Serial_PARITY_OPTIONS_NAME := "serial parity";
     SerialParity_EVEN := "even" |}.

Definition hw_exact : BusHardwareId :=
  {| getName := "Nanotec VCP"; getProtocol := "MODBUS VCP";
     getBusHardware := "USB" |}.

Definition hw_port : BusHardwareId :=
  {| getName := "Nanotec VCP (COM4)"; getProtocol := "MODBUS VCP";
     getBusHardware := "USB" |}.

Definition hw_other : BusHardwareId :=
  {| getName := "IXXAT USB-to-CAN"; getProtocol := "CANopen";
     getBusHardware := "IXXAT" |}.

Definition stub_answer : Answer :=
  {| ans_hasError := false;
     ans_getError := "";
     ans_hardware := [hw_other; hw_exact; hw_port];
     ans_notifications := [(0, [], 0); (1, [], 1); (1, [], 2); (2, [], 0)];
     ans_devices := [ {| toString := "C5-E-1-11" |} ];
     ans_handle := 7;
     ans_number := 39;
     ans_string := "";
     ans_array := [] |}.

(** Every call succeeds, with the same answer. *)
Definition stub_library : Library := fun _ => stub_answer.

(** The list call fails. *)
Definition stub_library_failing : Library :=
  fun _ =>
    {| ans_hasError := true; ans_getError := "no driver";
       ans_hardware := []; ans_notifications := []; ans_devices := [];
       ans_handle := 0; ans_number := 0; ans_string := ""; ans_array := [] |}.

(** The register accesses of the sequence when no call fails, in order
    (lines 478-534). *)
Definition sequence_calls (h : DeviceHandle) : list AccessorCall :=
  [ readNumber h statusword;
    writeNumber h 1 modes_of_operation 8;
    readNumber h (mkOdIndex 0x6061 0x00);
    readNumber h controlword;
    writeNumber h 6 controlword 16;
    writeNumber h 7 controlword 16;
    writeNumber h 15 controlword 16;
    readNumber h controlword;
    readNumber h statusword ]
  ++ concat
       (replicate 4
          [ writeNumber h 1000 target_position 32;
            writeNumber h 31 controlword 16;
            writeNumber h 15 controlword 16;
            writeNumber h 0 target_position 32;
            writeNumber h 31 controlword 16;
            writeNumber h 15 controlword 16 ]).

(** The accessor calls of a run of [__main__] that nothing cuts short, for
    the bus hardware [hw] opened with [opts], the device [d] and its handle
    [h]. *)
Definition main_calls (N : NanolibConstants) (hw : BusHardwareId)
    (opts : BusHardwareOptions) (d : DeviceId) (h : DeviceHandle)
  : list LibCall :=
  [ setLoggingLevel (LogLevel_Info N);
    listAvailableBusHardware;
    openBusHardwareWithProtocol hw opts;
    scanDevices hw;
    addDevice d;
    connectDevice h ]
  ++ map numberAccess (sequence_calls h)
  ++ [ disconnectDevice h; closeBusHardware hw ].

(** A run that makes the calls [expected] and returns a value that
    satisfies [Q], or stops with a raised exception after an initial part
    of them. *)
Definition conforms {A : Type} (r : list Item * (Failure + A))
    (expected : list LibCall) (Q : A -> Prop) : Prop :=
  match r with
  | (t, inr a) => invocations t = expected /\ Q a
  | (t, inl f) => invocations t `prefix_of` expected /\ exists e, f = Raised e
  end.

(** A session all of whose runs conform. *)
Definition follows {A : Type} (s : Session A) (expected : list LibCall)
    (Q : A -> Prop) : Prop :=
  forall (library : Library) (n : nat), conforms (run library n s) expected Q.

(** The rest of [__main__] once the device has its handle (lines 473-575),
    once the bus is open (lines 468-575) and once the hardware is listed
    (lines 464-575); [main] is these three in a row, see [main_stages]. *)
Definition main_connected (bus_hardware_ids : list BusHardwareId)
    (bus_id : Py.value) (device_handle : DeviceHandle) : Session unit :=
  connect_device device_handle;;
  lift (main_sequence device_handle);;
  disconnect_device device_handle;;
  bus_hw_id ← getitem bus_hardware_ids bus_id;
  close_bus_hardware bus_hw_id.

Definition main_opened (N : NanolibConstants)
    (bus_hardware_ids : list BusHardwareId) (bus_id : Py.value) : Session unit :=
  bus_hw_id ← getitem bus_hardware_ids bus_id;
  device_ids ← scan_bus N bus_hw_id;
  device_id ← getitem device_ids (Py.Int 0);
  device_handle ← create_device device_id;
  main_connected bus_hardware_ids bus_id device_handle.

Definition main_listed (N : NanolibConstants)
    (bus_hardware_ids : list BusHardwareId) : Session unit :=
  bus_id ← of_result (select_bus bus_hardware_ids);
  bus_hw_id ← getitem bus_hardware_ids bus_id;
  bus_hw_options ← bus_hardware_options N bus_hw_id;
  bus_hw_id ← getitem bus_hardware_ids bus_id;
  open_bus_hardware bus_hw_id bus_hw_options;;
  main_opened N bus_hardware_ids bus_id.

(** The two calls that release what [__main__] acquired. *)
Definition cleanup (c : LibCall) : bool :=
  match c with
  | disconnectDevice _ | closeBusHardware _ => true
  | _ => false
  end.

(** * Properties *)

(** ** Python primitives *)

Lemma int_in_elem_of (x : Z) (l : list Z) : Py.int_in x l = true ↔ x ∈ l.
Proof.
  unfold Py.int_in. rewrite existsb_exists. split.
  - intros (y & Hy & Heq). apply Z.eqb_eq in Heq. subst y.
    by apply list_elem_of_In.
  - intros Hx. exists x. split; [by apply list_elem_of_In | apply Z.eqb_refl].
Qed.

Lemma int_in_not_elem_of (x : Z) (l : list Z) : Py.int_in x l = false ↔ x ∉ l.
Proof.
  rewrite <- int_in_elem_of. destruct (Py.int_in x l); split; congruence.
Qed.

(** ** The status table *)

Section StatusTable.

Implicit Types (rows : list (string * list Z)) (x : Z).

(** The outcome of a scan: the label of a row that holds [x], or the
    fallback when no row does. *)
Lemma first_match_cases rows x :
  (∃ label values,
      (label, values) ∈ rows ∧ x ∈ values ∧ first_match rows x = label)
  ∨ ((∀ label values, (label, values) ∈ rows → x ∉ values)
     ∧ first_match rows x = "Cannot determine controller state").
Proof.
  induction rows as [| [label values] rows IH]; simpl.
  - right. split; [| done]. intros ? ? Hin. inversion Hin.
  - destruct (Py.int_in x values) eqn:Hx.
    + left. exists label, values. apply int_in_elem_of in Hx.
      split_and!; [left | done | done].
    + apply int_in_not_elem_of in Hx.
      destruct IH as [(l & vs & Hin & Hvs & Heq) | [Hnone Heq]].
      * left. exists l, vs. split_and!; [by right | done | done].
      * right. split; [| done].
        intros l vs [Hhd | Htl]%elem_of_cons; [congruence | eauto].
Qed.

(** When no value sits in two different rows, the scan finds the row
    that holds [x], wherever it stands in the list. *)
Lemma first_match_unique rows x label values :
  (∀ r1 r2 y, r1 ∈ rows → r2 ∈ rows → y ∈ r1.2 → y ∈ r2.2 → r1 = r2) →
  (label, values) ∈ rows → x ∈ values → first_match rows x = label.
Proof.
  intros Huniq Hin Hx.
  destruct (first_match_cases rows x)
    as [(l & vs & Hin' & Hx' & ->) | [Hnone _]].
  - by injection (Huniq (l, vs) (label, values) x Hin' Hin Hx' Hx).
  - by destruct (Hnone label values Hin).
Qed.

Lemma first_match_none rows x :
  (∀ label values, (label, values) ∈ rows → x ∉ values) →
  first_match rows x = "Cannot determine controller state".
Proof.
  intros Hnone.
  destruct (first_match_cases rows x)
    as [(l & vs & Hin & Hx & _) | [_ Heq]]; [| done].
  by destruct (Hnone l vs Hin).
Qed.

(** [decode_status] is the scan of [status_rows] on the masked word. *)
Lemma decode_status_first_match (status_word : Z) :
  decode_status status_word = first_match status_rows (Z.land status_word filter).
Proof. reflexivity. Qed.

(** Every key that [decode_status] subscripts is bound in [state]. *)
Lemma status_rows_bound :
  Forall (λ row, state !! row.1 = Some row.2) status_rows.
Proof. repeat constructor. Qed.

(** The specification's table is, label for label and value for value,
    the table the code scans. *)
Lemma spec_status_table_rows :
  map (λ row, (DriveState_label row.1, row.2)) spec_status_table = status_rows.
Proof. reflexivity. Qed.

(** Rows at different positions share no value. *)
Lemma status_rows_pairwise_disjoint (i j : nat) (r1 r2 : string * list Z) x :
  status_rows !! i = Some r1 → status_rows !! j = Some r2 → i ≠ j →
  x ∈ r1.2 → x ∉ r2.2.
Proof.
  intros Hi Hj Hne Hx.
  assert (Hall : Forall (λ y, y ∉ r2.2) r1.2);
    [| exact (proj1 (Forall_forall _ _) Hall x Hx)].
  do 9 (try destruct i as [| i]); try discriminate;
    do 9 (try destruct j as [| j]); try discriminate; try congruence;
    injection Hi as <-; injection Hj as <-;
    apply (bool_decide_unpack _); vm_compute; exact I.
Qed.

Lemma status_rows_unique (r1 r2 : string * list Z) x :
  r1 ∈ status_rows → r2 ∈ status_rows → x ∈ r1.2 → x ∈ r2.2 → r1 = r2.
Proof.
  intros [i Hi]%list_elem_of_lookup [j Hj]%list_elem_of_lookup H1 H2.
  destruct (decide (i = j)) as [-> | Hne]; [congruence |].
  by destruct (status_rows_pairwise_disjoint i j r1 r2 x).
Qed.

End StatusTable.

(** ** Claims on the decoders *)

(** C1.  For every 16-bit status word, [decode_status] masks the word with
    [0x00FF] and returns the label of the row of the table of section 4.1
    that lists the masked value; when no row lists it, it returns the
    fallback label. *)
Theorem decode_status_table (status_word : Z) :
  0 ≤ status_word < 65536 →
  (∀ s values,
      (s, values) ∈ spec_status_table →
      Z.land status_word 0x00FF ∈ values →
      decode_status status_word = DriveState_label s)
  ∧ ((∀ s values,
        (s, values) ∈ spec_status_table →
        Z.land status_word 0x00FF ∉ values) →
     decode_status status_word = DriveState_label UnknownState).
Proof.
  intros _. rewrite decode_status_first_match. change filter with 0x00FF.
  split.
  - intros s values Hin Hx.
    apply first_match_unique with values; [apply status_rows_unique | | done].
    rewrite <- spec_status_table_rows. apply list_elem_of_In.
    apply (in_map (λ row, (DriveState_label row.1, row.2)) _ (s, values)).
    by apply list_elem_of_In.
  - intros Hnone. apply first_match_none. intros label values Hin.
    rewrite <- spec_status_table_rows in Hin.
    apply list_elem_of_In, in_map_iff in Hin as ([s vs] & [= <- <-] & Hin).
    apply (Hnone s). by apply list_elem_of_In.
Qed.

Lemma decode_status_table_witness :
  0 ≤ 0x1F08 < 65536
  ∧ decode_status 0x1F08 = "Fault"
  ∧ decode_status 0x0021 = "Ready to switch on"
  ∧ decode_status 0x0027 = "Operation Enabled"
  ∧ decode_status 0x0001 = "Cannot determine controller state".
Proof.
  split; [lia |]. split_and!.
  - apply (proj1 (decode_status_table 0x1F08 ltac:(lia)) Fault
             [8; 24; 40; 56; 136; 152; 168; 184]);
      apply (bool_decide_unpack _); vm_compute; exact I.
  - apply (proj1 (decode_status_table 0x0021 ltac:(lia)) ReadyToSwitchOn
             [33; 49; 161; 177]);
      apply (bool_decide_unpack _); vm_compute; exact I.
  - apply (proj1 (decode_status_table 0x0027 ltac:(lia)) OperationEnabled
             [39; 55; 167; 183]);
      apply (bool_decide_unpack _); vm_compute; exact I.
  - apply (proj2 (decode_status_table 0x0001 ltac:(lia))).
    intros s values Hin.
    assert (Hall : Forall (λ row, Z.land 0x0001 0x00FF ∉ row.2) spec_status_table)
      by (apply (bool_decide_unpack _); vm_compute; exact I).
    exact (proj1 (Forall_forall _ _) Hall (s, values) Hin).
Defined.

(** C5.  [decode_mode] returns, for each of the codes -2 .. 6, the label the
    specification gives it, and the fallback label for every other
    integer. *)
Theorem decode_mode_table :
  Forall (λ row, decode_mode row.1 = OperatingMode_label row.2) spec_mode_table
  ∧ ∀ mode : Z,
      mode ∉ [-2; -1; 0; 1; 2; 3; 4; 5; 6] →
      decode_mode mode = OperatingMode_label UnknownMode.
Proof.
  split; [repeat constructor |].
  intros mode Hout. unfold decode_mode.
  repeat match goal with
         | |- context [(mode =? ?c)%Z] =>
             destruct (Z.eqb_spec mode c) as [-> | _];
             [exfalso; apply Hout; apply (bool_decide_unpack _); vm_compute;
              exact I |]
         end.
  reflexivity.
Qed.

Lemma decode_mode_table_witness :
(42 ∉ [-2; -1; 0; 1; 2; 3; 4; 5; 6])
  ∧ decode_mode 42 = "Error not able to determine mode"
  ∧ decode_mode 1 = "Profile Position Mode"
  ∧ decode_mode (-2) = "Auto setup".
Proof.
  assert (Hout : 42 ∉ [-2; -1; 0; 1; 2; 3; 4; 5; 6])
    by (apply (bool_decide_unpack _); vm_compute; exact I).
  split; [exact Hout |]. split_and!.
  - exact (proj2 decode_mode_table 42 Hout).
  - exact (proj1 (Forall_forall _ _) (proj1 decode_mode_table) (1, ProfilePosition)
             ltac:(apply (bool_decide_unpack _); vm_compute; exact I)).
  - exact (proj1 (Forall_forall _ _) (proj1 decode_mode_table) (-2, AutoSetup)
             ltac:(apply (bool_decide_unpack _); vm_compute; exact I)).
Defined.

(** Setting the high byte leaves the masked word as it was. *)
Lemma land_filter_high_byte (x : Z) :
  Z.land (Z.lor x 0xFF00) filter = Z.land x filter.
Proof.
  rewrite Z.land_lor_distr_l.
  change (Z.land 0xFF00 filter) with 0. apply Z.lor_0_r.
Qed.

(** C6.  [decode_status] does not look at the high byte: setting all its
    bits changes nothing, and two words with the same low byte decode
    alike. *)
Theorem decode_status_high_byte (x y : Z) :
  0 ≤ x < 65536 →
  decode_status x = decode_status (Z.lor x 0xFF00)
  ∧ (Z.land x 0x00FF = Z.land y 0x00FF → decode_status x = decode_status y).
Proof.
  intros _. split.
  - unfold decode_status. by rewrite land_filter_high_byte.
  - intros Hlow. unfold decode_status. change filter with 0x00FF.
    by rewrite Hlow.
Qed.

Lemma decode_status_high_byte_witness :
  0 ≤ 0x0021 < 65536
  ∧ decode_status 0x0021 = decode_status (Z.lor 0x0021 0xFF00)
  ∧ decode_status 0x0021 = decode_status 0x1F21.
Proof.
  split; [lia |].
  destruct (decode_status_high_byte 0x0021 0x1F21 ltac:(lia)) as [Hhigh Hlow].
  split; [exact Hhigh | apply Hlow; reflexivity].
Defined.

(** C9.  The value lists of the rows that [decode_status] tests are pairwise
    disjoint, so a masked value matches at most one row, and testing the
    rows in any other order gives the result of [decode_status]. *)
Theorem status_rows_order_free :
  (∀ (i j : nat) (r1 r2 : string * list Z) (x : Z),
      status_rows !! i = Some r1 → status_rows !! j = Some r2 → i ≠ j →
      x ∈ r1.2 → x ∉ r2.2)
  ∧ (∀ (rows : list (string * list Z)) (status_word : Z),
        rows ≡ₚ status_rows →
        first_match rows (Z.land status_word filter)
        = decode_status status_word).
Proof.
  split; [apply status_rows_pairwise_disjoint |].
  intros rows status_word Hperm. rewrite decode_status_first_match.
  set (x := Z.land status_word filter).
  assert (Huniq : ∀ r1 r2 y,
             r1 ∈ rows → r2 ∈ rows → y ∈ r1.2 → y ∈ r2.2 → r1 = r2).
  { intros r1 r2 y. rewrite !Hperm. apply status_rows_unique. }
  destruct (first_match_cases status_rows x)
    as [(label & values & Hin & Hx & ->) | [Hnone ->]].
  - apply first_match_unique with values; [done | by rewrite Hperm | done].
  - apply first_match_none. intros label values. rewrite Hperm. apply Hnone.
Qed.

Lemma status_rows_order_free_witness :
  reverse status_rows ≡ₚ status_rows
  ∧ first_match (reverse status_rows) (Z.land 0x1F08 filter)
    = decode_status 0x1F08.
Proof.
  assert (Hperm : reverse status_rows ≡ₚ status_rows)
    by apply reverse_Permutation.
  split; [exact Hperm |].
  exact (proj2 status_rows_order_free (reverse status_rows) 0x1F08 Hperm).
Defined.

(** ** Bus selection *)

Section SelectBus.

Lemma append_String (c : Ascii.ascii) (s t : string) :
  String c s +:+ t = String c (s +:+ t).
Proof. reflexivity. Qed.

Lemma prefix_app (needle hay : string) :
  String.prefix needle hay = true ↔ ∃ after, hay = needle +:+ after.
Proof.
  revert hay. induction needle as [| c needle IH]; intros hay.
  - destruct hay; simpl; (split; [intros _; by eexists | done]).
  - destruct hay as [| d hay]; simpl.
    + split; [done | by intros [? ?]].
    + destruct (Ascii.ascii_dec c d) as [-> | Hne].
      * rewrite IH.
        split; intros [after Heq]; exists after;
          rewrite append_String in *; congruence.
      * split; [done |].
        intros [after Heq]. rewrite append_String in Heq. congruence.
Qed.

(** The executable test agrees with the meaning of Python's [in]. *)
Lemma str_in_substring (needle hay : string) :
  Py.str_in needle hay = true ↔ substring needle hay.
Proof.
  unfold substring. induction hay as [| d hay IH]; cbn [Py.str_in].
  - rewrite orb_false_r, prefix_app. split.
    + intros [after Heq]. by exists "", after.
    + intros (before & after & Heq).
      destruct before; [by exists after | discriminate].
  - rewrite orb_true_iff, prefix_app, IH. split.
    + intros [[after Heq] | (before & after & Heq)].
      * by exists "", after.
      * exists (String d before), after. by rewrite append_String, Heq.
    + intros ([| d' before] & after & Heq).
      * left. by exists after.
      * right. exists before, after.
        rewrite append_String in Heq. congruence.
Qed.

Lemma str_in_not_substring (needle hay : string) :
  Py.str_in needle hay = false ↔ ¬ substring needle hay.
Proof.
  rewrite <- str_in_substring.
  destruct (Py.str_in needle hay); split; congruence.
Qed.

(** What the locals [(i, nanotec_vcp)] hold once the loop has gone over
    [l]: the next index, and either the initial empty string when no name
    matched, or the largest index whose name matched. *)
Lemma select_bus_loop (l : list BusHardwareId) :
  ∃ v, fold_left select_bus_step l (0, Py.Str "") = (Z.of_nat (length l), v)
    ∧ ((v = Py.Str ""
        ∧ ∀ b, b ∈ l → ¬ substring "Nanotec VCP" (getName b))
       ∨ (∃ (i : nat) b,
            v = Py.Int (Z.of_nat i) ∧ l !! i = Some b
            ∧ substring "Nanotec VCP" (getName b)
            ∧ ∀ (j : nat) b',
                (i < j)%nat → l !! j = Some b' →
                ¬ substring "Nanotec VCP" (getName b'))).
Proof.
  induction l as [| x l IH] using rev_ind.
  - exists (Py.Str ""). split; [done |]. left. split; [done |].
    intros b Hb. inversion Hb.
  - destruct IH as (v & Hfold & IH).
    rewrite fold_left_app, Hfold. simpl.
    destruct (Py.str_in "Nanotec VCP" (getName x)) eqn:Hx.
    + apply str_in_substring in Hx.
      exists (Py.Int (Z.of_nat (length l))). split.
      { f_equal. rewrite length_app. simpl. lia. }
      right. exists (length l), x. split_and!; [done | | done |].
      * by rewrite lookup_app_r, Nat.sub_diag.
      * intros j b' Hlt Hj. apply lookup_lt_Some in Hj.
        rewrite length_app in Hj. simpl in Hj. lia.
    + apply str_in_not_substring in Hx.
      exists v. split.
      { f_equal. rewrite length_app. simpl. lia. }
      destruct IH as [[-> Hnone] | (i & b & -> & Hi & Hb & Hlast)].
      * left. split; [done |].
        intros b [Hb | ->%list_elem_of_singleton]%elem_of_app; auto.
      * right. exists i, b. split_and!; [done | | done |].
        -- by apply lookup_app_l_Some.
        -- intros j b' Hlt Hj.
           apply lookup_app_Some in Hj as [Hj | [_ Hj]]; [eauto |].
           apply list_lookup_singleton_Some in Hj as [_ <-]. done.
Qed.

End SelectBus.

(** C10.  [select_bus] returns the index of the last entry whose name
    contains ['Nanotec VCP'], and raises, returning no index, when no name
    contains it. *)
Theorem select_bus_last_match (bus_hardwares : list BusHardwareId) :
  match select_bus bus_hardwares with
  | inr v =>
      ∃ (i : nat) b,
        v = Py.Int (Z.of_nat i) ∧ bus_hardwares !! i = Some b
        ∧ substring "Nanotec VCP" (getName b)
        ∧ ∀ (j : nat) b',
            (i < j)%nat → bus_hardwares !! j = Some b' →
            ¬ substring "Nanotec VCP" (getName b')
  | inl e =>
      e = Py.Exception "No USB Nanotec Controller Found"
      ∧ ∀ b, b ∈ bus_hardwares → ¬ substring "Nanotec VCP" (getName b)
  end.
Proof.
  unfold select_bus.
  destruct (select_bus_loop bus_hardwares) as (v & -> & Hv).
  destruct Hv as [[-> Hnone] | (i & b & -> & Hrest)]; simpl; eauto.
Qed.

(** ** Running scripts *)

Section Exec.

Context {A : Type}.
Implicit Types (gw : Gateway) (p : Script A) (n : nat).

(** A run started after [n] calls asks the gateway for results number
    [n] and later only. *)
Lemma exec_ext gw1 gw2 n p :
  (∀ m, (n ≤ m)%nat → gw1 m = gw2 m) → exec gw1 n p = exec gw2 n p.
Proof.
  revert n. induction p as [a | e | c k IH | secs k IH | line k IH];
    intros n Hagree; simpl; try done.
  - rewrite (Hagree n) by lia. by rewrite (IH (gw2 n) (S n)) by (intros; apply Hagree; lia).
  - by rewrite (IH n).
  - by rewrite (IH n).
Qed.

Lemma always_succeeds_cleared gw n p :
  always_succeeds gw → exec gw n p = exec (cleared gw) n p.
Proof.
  intros Hok. apply exec_ext. intros m _. specialize (Hok m).
  unfold cleared. destruct (gw m). simpl in *. by subst.
Qed.

(** In a fail-fast script a call that reports an error is the last event
    of the run, and the run ends in an exception. *)
Lemma fail_fast_exec gw p :
  fail_fast p →
  ∀ n (pre post : list Event) c o,
    exec gw n p = ((pre ++ Called c :: post)%list, o) →
    hasError (gw (n + calls pre)%nat) = true →
    post = [] ∧ ∃ e, o = inl e.
Proof.
  induction 1 as [a | e | c0 k Hraise _ IH | secs k _ IH | line k _ IH];
    intros n pre post c o Hexec Herr; simpl in Hexec.
  - destruct pre; discriminate.
  - destruct pre; discriminate.
  - destruct (exec gw (S n) (k (gw n))) as [t o'] eqn:Hk.
    destruct pre as [| ev pre]; simplify_eq/=.
    + rewrite Nat.add_0_r in Herr.
      destruct (Hraise _ Herr) as [e Heq]. rewrite Heq in Hk.
      simplify_eq/=. eauto.
    + rewrite Nat.add_succ_r in Herr. eapply IH; eauto.
  - destruct (exec gw n k) as [t o'] eqn:Hk.
    destruct pre as [| ev pre]; simplify_eq/=. eauto.
  - destruct (exec gw n k) as [t o'] eqn:Hk.
    destruct pre as [| ev pre]; simplify_eq/=. eauto.
Qed.

Lemma always_succeeds_cleared_gw gw : always_succeeds (cleared gw).
Proof. intros m. reflexivity. Qed.

(** A run of a fail-fast script is the run against the cleared gateway,
    cut after its first failing call. *)
Lemma fail_fast_prefix gw p :
  fail_fast p → ∀ n, (exec gw n p).1 `prefix_of` (exec (cleared gw) n p).1.
Proof.
  induction 1 as [a | e | c k Hraise _ IH | secs k _ IH | line k _ IH];
    intros n; simpl; try done.
  - destruct (hasError (gw n)) eqn:Herr.
    + destruct (Hraise _ Herr) as [e ->]. simpl.
      destruct (exec (cleared gw) (S n) _) as [t o]. simpl.
      apply prefix_cons, prefix_nil.
    + assert (Heta : cleared gw n = gw n).
      { unfold cleared. destruct (gw n). simpl in *. by subst. }
      rewrite Heta. specialize (IH (gw n) (S n)).
      destruct (exec gw (S n) _) as [t o], (exec (cleared gw) (S n) _) as [t' o'].
      by apply prefix_cons.
  - specialize (IH n).
    destruct (exec gw n k) as [t o], (exec (cleared gw) n k) as [t' o'].
    by apply prefix_cons.
  - specialize (IH n).
    destruct (exec gw n k) as [t o], (exec (cleared gw) n k) as [t' o'].
    by apply prefix_cons.
Qed.

End Exec.

(** ** Fail-fast scripts *)

Lemma fail_fast_bind {A B : Type} (p : Script A) (f : A → Script B) :
  fail_fast p → (∀ a, fail_fast (f a)) → fail_fast (p ≫= f).
Proof.
  intros Hp Hf. induction Hp as [a | e | c k Hraise _ IH | secs k _ IH | line k _ IH].
  - apply Hf.
  - constructor.
  - apply (ff_Accessor c (λ r, k r ≫= f)); [| done].
    intros r Herr. destruct (Hraise r Herr) as [e ->]. by exists e.
  - by apply (ff_Sleep secs (k ≫= f)).
  - by apply (ff_Print line (k ≫= f)).
Qed.

Lemma fail_fast_read_number h od : fail_fast (read_number h od).
Proof.
  apply ff_Accessor; simpl.
  - intros r ->. eauto.
  - intros r. destruct (hasError r); constructor.
Qed.

Lemma fail_fast_write_number h v od bits : fail_fast (write_number h v od bits).
Proof.
  apply ff_Accessor; simpl.
  - intros r ->. eauto.
  - intros r. destruct (hasError r); constructor.
Qed.

Lemma fail_fast_sleep secs : fail_fast (sleep secs).
Proof. repeat constructor. Qed.

Lemma fail_fast_print line : fail_fast (print line).
Proof. repeat constructor. Qed.

Create HintDb fail_fast.
#[export] Hint Resolve fail_fast_read_number fail_fast_write_number
  fail_fast_sleep fail_fast_print : fail_fast.
#[export] Hint Constructors fail_fast : fail_fast.

Ltac fail_fast_steps :=
  repeat (apply fail_fast_bind; [auto with fail_fast | intros ?]);
  auto with fail_fast.

Lemma fail_fast_move_loop h times count : fail_fast (move_loop h times count).
Proof.
  revert count. induction times as [| times IH]; intros count;
    cbn [move_loop].
  - constructor.
  - fail_fast_steps.
Qed.

Lemma fail_fast_enable_handshake h : fail_fast (enable_handshake h).
Proof. unfold enable_handshake. fail_fast_steps. Qed.

Lemma fail_fast_main_sequence h : fail_fast (main_sequence h).
Proof.
  unfold main_sequence. apply fail_fast_bind; [apply fail_fast_enable_handshake |].
  intros _. apply fail_fast_bind; [apply fail_fast_move_loop |].
  intros _. constructor.
Qed.

(** ** Claims on the sequence *)

(** C2.  When every gateway call succeeds, the writes of the sequence are
    operating mode = 1 and the controlwords 6, 7, 15, in this order,
    followed by the writes of the four turns of the loop; so every write to
    the target-position register comes after these four. *)
Theorem handshake_before_moves (gw : Gateway) (h : DeviceHandle) :
  always_succeeds gw →
  writes (exec gw 0 (main_sequence h)).1
  = (handshake_writes
     ++ cycle_writes ++ cycle_writes ++ cycle_writes ++ cycle_writes)%list
  ∧ controlword_writes handshake_writes = [6; 7; 15]
  ∧ ∀ (before after : list (Z * OdIndex * Z)) value bit_length,
      writes (exec gw 0 (main_sequence h)).1
      = (before ++ (value, target_position, bit_length) :: after)%list →
      ∃ rest, before = (handshake_writes ++ rest)%list.
Proof.
  intros Hok. rewrite (always_succeeds_cleared gw 0 _ Hok).
  split; [reflexivity |]. split; [reflexivity |].
  intros before after value bit_length Hsplit.
  do 4 (destruct before as [| ? before]; [discriminate |]).
  injection Hsplit as <- <- <- <- _. by exists before.
Qed.

Lemma handshake_before_moves_witness :
  always_succeeds stub_ok
  ∧ writes (exec stub_ok 0 (main_sequence 7)).1
    = [ (1, modes_of_operation, 8); (6, controlword, 16);
        (7, controlword, 16); (15, controlword, 16);
        (1000, target_position, 32); (31, controlword, 16);
        (15, controlword, 16); (0, target_position, 32);
        (31, controlword, 16); (15, controlword, 16);
        (1000, target_position, 32); (31, controlword, 16);
        (15, controlword, 16); (0, target_position, 32);
        (31, controlword, 16); (15, controlword, 16);
        (1000, target_position, 32); (31, controlword, 16);
        (15, controlword, 16); (0, target_position, 32);
        (31, controlword, 16); (15, controlword, 16);
        (1000, target_position, 32); (31, controlword, 16);
        (15, controlword, 16); (0, target_position, 32);
        (31, controlword, 16); (15, controlword, 16) ].
Proof.
  assert (Hok : always_succeeds stub_ok) by (intros n; reflexivity).
  split; [exact Hok |].
  exact (proj1 (handshake_before_moves stub_ok 7 Hok)).
Defined.

(** C3.  A gateway call of the sequence that reports an error is the last
    event of the run: no call, wait or print follows it, and the run ends in
    an exception.  [gw (calls pre)] is the result handed to the call [c]
    made after the events [pre]. *)
Theorem failed_call_aborts (gw : Gateway) (h : DeviceHandle)
    (pre post : list Event) (c : AccessorCall) (o : Py.exn + unit) :
  exec gw 0 (main_sequence h) = ((pre ++ Called c :: post)%list, o) →
  hasError (gw (calls pre)) = true →
  post = [] ∧ ∃ e, o = inl e.
Proof.
  intros Hexec Herr.
  exact (fail_fast_exec gw _ (fail_fast_main_sequence h) 0%nat pre post c o
           Hexec Herr).
Qed.

Lemma failed_call_aborts_witness :
  let pre :=
    [ Called (readNumber 7 statusword);
      Printed (Py.nl +:+ "Current controller state: Operation Enabled");
      Called (writeNumber 7 1 modes_of_operation 8);
      Called (readNumber 7 (mkOdIndex 0x6061 0x00));
      Printed "Controller mode: Error not able to determine mode";
      Called (readNumber 7 controlword);
      Printed "39"; Printed "100111";
      Called (writeNumber 7 6 controlword 16);
      Slept 2 ] in
  let e :=
    Py.AttributeError
      "'NanoLibController' object has no attribute 'create_error_message'" in
  exec stub_fail_cw7 0 (main_sequence 7)
  = ((pre ++ [Called (writeNumber 7 7 controlword 16)])%list, inl e)
  ∧ hasError (stub_fail_cw7 (calls pre)) = true
  ∧ (@nil Event = [] ∧ ∃ e', @inl Py.exn unit e = inl e').
Proof.
  intros pre e.
  assert (Hexec : exec stub_fail_cw7 0 (main_sequence 7)
                  = ((pre ++ Called (writeNumber 7 7 controlword 16) :: [])%list,
                     inl e)) by (vm_compute; reflexivity).
  assert (Herr : hasError (stub_fail_cw7 (calls pre)) = true) by reflexivity.
  split; [exact Hexec |]. split; [exact Herr |].
  exact (failed_call_aborts stub_fail_cw7 7 pre [] _ _ Hexec Herr).
Defined.

(** The scenario of the specification: the write of controlword = 7 fails,
    and neither controlword = 15 nor a target position is written. *)
Example failed_cw7_writes :
  writes (exec stub_fail_cw7 0 (main_sequence 7)).1
  = [ (1, modes_of_operation, 8); (6, controlword, 16); (7, controlword, 16) ].
Proof. vm_compute. reflexivity. Qed.

(** The loop against a gateway that always succeeds. *)
Lemma exec_move_loop (gw : Gateway) (h : DeviceHandle) (times n : nat) (count : Z) :
  always_succeeds gw →
  exec gw n (move_loop h times count)
  = (flat_map (cycle h) (counts times count), inr (count + Z.of_nat times)).
Proof.
  intros Hok. revert n count. induction times as [| times IH]; intros n count.
  - simpl. do 2 f_equal. lia.
  - rewrite (always_succeeds_cleared gw n _ Hok).
    cbn -[Py.str]. rewrite <- (always_succeeds_cleared gw _ _ Hok), IH.
    do 2 f_equal. lia.
Qed.

(** C7.  Each turn of the loop performs, in order, the target write, the
    controlwords [0b11111] and [0b1111] and a wait, then the same with
    target 0, and prints its counter: two controlword writes in each half.
    When every gateway call succeeds the loop runs all its turns this way,
    four of them in the sequence; against any gateway its events are a
    prefix of these. *)
Theorem move_loop_cycles (h : DeviceHandle) (times n : nat) (count : Z) :
  (∀ gw : Gateway,
      always_succeeds gw →
      exec gw n (move_loop h times count)
      = (flat_map (cycle h) (counts times count), inr (count + Z.of_nat times)))
  ∧ (∀ gw : Gateway,
        (exec gw n (move_loop h times count)).1
        `prefix_of` flat_map (cycle h) (counts times count))
  ∧ (∀ target,
        writes (half_cycle h target)
        = [ (target, target_position, 32); (31, controlword, 16);
            (15, controlword, 16) ]
        ∧ controlword_writes (writes (half_cycle h target)) = [31; 15])
  ∧ (∀ gw : Gateway,
        always_succeeds gw →
        exec gw 0 (main_sequence h)
        = ((handshake_trace h (getResult (gw 0%nat)) (getResult (gw 2%nat))
              (getResult (gw 3%nat)) (getResult (gw 7%nat))
              (getResult (gw 8%nat))
            ++ cycle h 1 ++ cycle h 2 ++ cycle h 3 ++ cycle h 4)%list,
           inr tt)).
Proof.
  split_and!.
  - intros gw Hok. by apply exec_move_loop.
  - intros gw.
    pose proof (fail_fast_prefix gw _ (fail_fast_move_loop h times count) n)
      as Hprefix.
    by rewrite (exec_move_loop (cleared gw) h times n count
                  (always_succeeds_cleared_gw gw)) in Hprefix.
  - intros target. split; reflexivity.
  - intros gw Hok. rewrite (always_succeeds_cleared gw 0 _ Hok). reflexivity.
Qed.

Lemma move_loop_cycles_witness :
  always_succeeds stub_ok
  ∧ exec stub_ok 8 (move_loop 7 2 1)
    = ([ Called (writeNumber 7 1000 target_position 32);
         Called (writeNumber 7 31 controlword 16);
         Called (writeNumber 7 15 controlword 16);
         Slept 2;
         Called (writeNumber 7 0 target_position 32);
         Called (writeNumber 7 31 controlword 16);
         Called (writeNumber 7 15 controlword 16);
         Slept 2;
         Printed "1";
         Called (writeNumber 7 1000 target_position 32);
         Called (writeNumber 7 31 controlword 16);
         Called (writeNumber 7 15 controlword 16);
         Slept 2;
         Called (writeNumber 7 0 target_position 32);
         Called (writeNumber 7 31 controlword 16);
         Called (writeNumber 7 15 controlword 16);
         Slept 2;
         Printed "2" ], inr 3).
Proof.
  assert (Hok : always_succeeds stub_ok) by (intros n; reflexivity).
  split; [exact Hok |].
  exact (proj1 (move_loop_cycles 7 2%nat 8%nat 1) stub_ok Hok).
Defined.

(** After the first read and the print of its decoded value, the sequence
    goes on with one and the same script, whatever the value read. *)
Lemma main_sequence_after_first_read (h : DeviceHandle) :
  ∃ rest : Script unit,
    ∀ gw : Gateway,
      hasError (gw 0%nat) = false →
      (exec gw 0 (main_sequence h)).1
      = Called (readNumber h statusword)
        :: Printed (Py.nl +:+ "Current controller state: "
                    +:+ decode_status (getResult (gw 0%nat)))
        :: (exec gw 1 rest).1.
Proof.
  eexists. intros gw Hok.
  cbn -[move_loop decode_status decode_mode Py.str Py.format_b].
  rewrite Hok.
  cbn -[move_loop decode_status decode_mode Py.str Py.format_b exec].
  match goal with
  | |- context [exec gw 1 (Print ?line ?k)] =>
      instantiate (1 := k);
      change (exec gw 1 (Print line k))
        with (let '(t, o) := exec gw 1 k in (Printed line :: t, o))
  end.
  by destruct (exec gw 1 _).
Qed.

(** C8.  Two runs whose gateways differ only in the value of the first
    result, the initial status-word read, which succeeds in both, issue the
    same register writes: same values, same addresses, same order. *)
Theorem initial_status_not_branched_on (gw1 gw2 : Gateway) (h : DeviceHandle) :
  hasError (gw1 0%nat) = false →
  hasError (gw2 0%nat) = false →
  (∀ n, n ≠ 0%nat → gw1 n = gw2 n) →
  writes (exec gw1 0 (main_sequence h)).1
  = writes (exec gw2 0 (main_sequence h)).1.
Proof.
  intros Hok1 Hok2 Hagree.
  destruct (main_sequence_after_first_read h) as [rest Hrest].
  rewrite (Hrest gw1 Hok1), (Hrest gw2 Hok2).
  rewrite (exec_ext gw1 gw2 1 rest) by (intros m Hm; apply Hagree; lia).
  reflexivity.
Qed.

Lemma initial_status_not_branched_on_witness :
  hasError (stub_ok 0%nat) = false
  ∧ hasError (stub_fault_first 0%nat) = false
  ∧ (∀ n, n ≠ 0%nat → stub_ok n = stub_fault_first n)
  ∧ decode_status (getResult (stub_ok 0%nat)) = "Operation Enabled"
  ∧ decode_status (getResult (stub_fault_first 0%nat)) = "Fault"
  ∧ writes (exec stub_ok 0 (main_sequence 7)).1
    = writes (exec stub_fault_first 0 (main_sequence 7)).1.
Proof.
  assert (Hagree : ∀ n, n ≠ 0%nat → stub_ok n = stub_fault_first n)
    by (intros [| n] Hn; [done | reflexivity]).
  split_and!; [reflexivity | reflexivity | exact Hagree | reflexivity
              | reflexivity |].
  exact (initial_status_not_branched_on stub_ok stub_fault_first 7
           eq_refl eq_refl Hagree).
Defined.

(** ** The exception raised on a gateway error *)

(** Neither the instance nor the class binds [create_error_message]. *)
Lemma create_error_message_unbound :
  "create_error_message" ∉ (instance_names ++ NanoLibController_names)%list.
Proof. apply (bool_decide_unpack _). vm_compute. exact I. Qed.

(** A failed read and a failed write raise one and the same exception,
    whatever the handle, the value and the address. *)
Lemma failed_access_exception (gw : Gateway) (n : nat) (h : DeviceHandle)
    (value : Z) (od_index : OdIndex) (bit_length : Z) :
  hasError (gw n) = true →
  exec gw n (read_number h od_index)
  = ([Called (readNumber h od_index)], inl self_create_error_message)
  ∧ exec gw n (write_number h value od_index bit_length)
    = ([Called (writeNumber h value od_index bit_length)],
       inl self_create_error_message).
Proof. intros Herr. simpl. by rewrite Herr. Qed.

(** C4.  On the code, the exception raised when the write of
    controlword = 7 fails is the [AttributeError] of the load of
    [self.create_error_message]; its message names neither the operation
    [write_number] nor the index [0x6040] of the controlword, and the
    gateway's own error text is not in it. *)
Theorem failed_write_raises_attribute_error :
  ∃ message : string,
    (exec stub_fail_cw7 0 (main_sequence 7)).2
    = inl (Py.AttributeError message)
    ∧ message
      = "'NanoLibController' object has no attribute 'create_error_message'"
    ∧ Py.str_in "write_number" message = false
    ∧ Py.str_in "6040" message = false
    ∧ Py.str_in (Py.str 0x6040) message = false
    ∧ Py.str_in (getError (stub_fail_cw7 5%nat)) message = false.
Proof. eexists. split_and!; [vm_compute; reflexivity | reflexivity ..]. Qed.


(** * Further properties *)

(** ** The decoders on the bits of the status word *)

Lemma bytes_forall (P : Z → bool) :
  forallb P bytes = true → ∀ m, 0 ≤ m < 256 → P m = true.
Proof.
  intros Hall m Hm. rewrite forallb_forall in Hall. apply Hall.
  apply in_map_iff. exists (Z.to_nat m). split; [lia |].
  apply in_seq. lia.
Qed.

Lemma land_filter_range (x : Z) : 0 ≤ Z.land x filter < 256.
Proof.
  change filter with (Z.ones 8). rewrite Z.land_ones by lia.
  apply Z.mod_pos_bound. lia.
Qed.

Lemma decode_status_masked (x : Z) :
  decode_status x = decode_status (Z.land x filter).
Proof.
  unfold decode_status. by rewrite <- Z.land_assoc, Z.land_diag.
Qed.

Lemma mask_decode_masked (x : Z) : mask_decode x = mask_decode (Z.land x filter).
Proof.
  unfold mask_decode. rewrite <- !Z.land_assoc.
  change (Z.land filter 0x4F) with 0x4F. change (Z.land filter 0x6F) with 0x6F.
  reflexivity.
Qed.

(** X1.  The table of [decode_status] is the mask-and-compare decoding of
    the drive profile: on every integer the if/elif chain over the eight
    value lists returns what comparing [status_word & 0x4F] and
    [status_word & 0x6F] with the eight state patterns returns. *)
Theorem decode_status_mask_decode (status_word : Z) :
  decode_status status_word = mask_decode status_word.
Proof.
  rewrite decode_status_masked, mask_decode_masked.
  apply String.eqb_eq.
  apply (bytes_forall (λ m, String.eqb (decode_status m) (mask_decode m)));
    [vm_compute; reflexivity | apply land_filter_range].
Qed.

(** X2.  [decode_status] reads only the bits 0-3, 5 and 6 of the status
    word: two words that agree on the mask [0x6F] decode alike, so bit 4
    (voltage enabled) and bit 7 (warning) never change the result. *)
Theorem decode_status_bits (x y : Z) :
  Z.land x 0x6F = Z.land y 0x6F → decode_status x = decode_status y.
Proof.
  intros Hbits. rewrite !decode_status_mask_decode. unfold mask_decode.
  assert (Hlow : Z.land x 0x4F = Z.land y 0x4F).
  { change 0x4F with (Z.land 0x6F 0x4F). by rewrite !Z.land_assoc, Hbits. }
  by rewrite Hbits, Hlow.
Qed.

Lemma decode_status_bits_witness :
  Z.land 0x0027 0x6F = Z.land 0x00B7 0x6F
  ∧ decode_status 0x0027 = decode_status 0x00B7.
Proof.
  split; [reflexivity |]. apply (decode_status_bits 0x0027 0x00B7). reflexivity.
Defined.

(** X3.  On the codes -2 .. 6 [decode_mode] is injective, and it returns
    the fallback label for none of them: the label tells the code. *)
Theorem decode_mode_injective (m1 m2 : Z) :
  (-2 ≤ m1 ≤ 6)%Z → (-2 ≤ m2 ≤ 6)%Z →
  decode_mode m1 ≠ "Error not able to determine mode"
  ∧ (decode_mode m1 = decode_mode m2 → m1 = m2).
Proof.
  intros H1 H2.
  assert (Hc1 : m1 ∈ [-2; -1; 0; 1; 2; 3; 4; 5; 6])
    by (rewrite !elem_of_cons; lia).
  assert (Hc2 : m2 ∈ [-2; -1; 0; 1; 2; 3; 4; 5; 6])
    by (rewrite !elem_of_cons; lia).
  clear H1 H2.
  repeat (apply elem_of_cons in Hc1 as [-> | Hc1]); [.. | inversion Hc1];
    (split; [discriminate |]);
    repeat (apply elem_of_cons in Hc2 as [-> | Hc2]);
    try (inversion Hc2; fail); try reflexivity; discriminate.
Qed.

Lemma decode_mode_injective_witness :
  (-2 ≤ 1 ≤ 6)%Z ∧ (-2 ≤ 6 ≤ 6)%Z
  ∧ decode_mode 1 ≠ "Error not able to determine mode"
  ∧ (decode_mode 1 = decode_mode 6 → 1 = 6).
Proof.
  split; [lia |]. split; [lia |].
  apply (decode_mode_injective 1 6); lia.
Defined.

(** ** The sequence against any gateway *)

Lemma writes_app (t u : list Event) : writes (t ++ u) = (writes t ++ writes u)%list.
Proof.
  induction t as [| [[h od | h v od bits] | secs | line] t IH]; simpl;
    by rewrite ?IH.
Qed.

Lemma calls_app (t u : list Event) : calls (t ++ u) = (calls t + calls u)%nat.
Proof.
  induction t as [| [c | secs | line] t IH]; simpl; by rewrite ?IH.
Qed.

Lemma waited_app (t u : list Event) : waited (t ++ u) = waited t + waited u.
Proof.
  induction t as [| [c | secs | line] t IH]; simpl; rewrite ?IH; lia.
Qed.

Lemma cleared_eq (gw : Gateway) (n : nat) :
  hasError (gw n) = false → cleared gw n = gw n.
Proof. intros Hok. unfold cleared. destruct (gw n). simpl in *. by subst. Qed.

Section ExecErrors.

Context {A : Type}.
Implicit Types (gw : Gateway) (p : Script A) (n j : nat).

(** A run none of whose calls fails is the run against the cleared
    gateway. *)
Lemma exec_no_error gw p n :
  (∀ m, (n ≤ m < n + calls (exec (cleared gw) n p).1)%nat →
        hasError (gw m) = false) →
  exec gw n p = exec (cleared gw) n p.
Proof.
  revert n. induction p as [a | e | c k IH | secs k IH | line k IH];
    intros n Hok; simpl in *; try done.
  - destruct (exec (cleared gw) (S n) (k (cleared gw n))) as [t o] eqn:Hk.
    simpl in Hok.
    rewrite cleared_eq in Hk by (apply Hok; lia).
    assert (Hrec : exec gw (S n) (k (gw n)) = exec (cleared gw) (S n) (k (gw n))).
    { apply IH. intros m Hm. rewrite Hk in Hm. simpl in Hm. apply Hok. lia. }
    by rewrite Hrec, Hk.
  - destruct (exec (cleared gw) n k) as [t o] eqn:Hk. simpl in Hok.
    assert (Hrec : exec gw n k = exec (cleared gw) n k).
    { apply IH. intros m Hm. rewrite Hk in Hm. by apply Hok. }
    by rewrite Hrec, Hk.
  - destruct (exec (cleared gw) n k) as [t o] eqn:Hk. simpl in Hok.
    assert (Hrec : exec gw n k = exec (cleared gw) n k).
    { apply IH. intros m Hm. rewrite Hk in Hm. by apply Hok. }
    by rewrite Hrec, Hk.
Qed.

(** In a fail-fast script the first call that reports an error is the last
    call made, and the run ends in an exception. *)
Lemma exec_first_error gw p :
  fail_fast p →
  ∀ n j,
    (∀ m, (n ≤ m < n + j)%nat → hasError (gw m) = false) →
    hasError (gw (n + j)%nat) = true →
    (j < calls (exec (cleared gw) n p).1)%nat →
    calls (exec gw n p).1 = S j ∧ ∃ e, (exec gw n p).2 = inl e.
Proof.
  induction 1 as [a | e | c k Hraise _ IH | secs k _ IH | line k _ IH];
    intros n j Hok Herr Hlt; simpl in *; try lia.
  - destruct j as [| j].
    + rewrite Nat.add_0_r in Herr. destruct (Hraise _ Herr) as [e ->].
      simpl. eauto.
    + destruct (exec (cleared gw) (S n) (k (cleared gw n))) as [t o] eqn:Hk.
      simpl in Hlt. rewrite cleared_eq in Hk by (apply Hok; lia).
      destruct (IH (gw n) (S n) j) as [Hcalls [e He]].
      * intros m Hm. apply Hok. lia.
      * by rewrite Nat.add_succ_r in Herr.
      * rewrite Hk. simpl. lia.
      * destruct (exec gw (S n) (k (gw n))) as [t' o']. simpl in *.
        split; [by rewrite Hcalls | eauto].
  - destruct (exec (cleared gw) n k) as [t o] eqn:Hk. simpl in Hlt.
    destruct (IH n j Hok Herr) as [Hcalls [e He]]; [by rewrite Hk |].
    destruct (exec gw n k) as [t' o']. simpl in *. eauto.
  - destruct (exec (cleared gw) n k) as [t o] eqn:Hk. simpl in Hlt.
    destruct (IH n j Hok Herr) as [Hcalls [e He]]; [by rewrite Hk |].
    destruct (exec gw n k) as [t' o']. simpl in *. eauto.
Qed.

End ExecErrors.

(** Below a bound, either no result carries an error or there is a first
    one that does. *)
Lemma first_error (gw : Gateway) (bound : nat) :
  (∀ n, (n < bound)%nat → hasError (gw n) = false)
  ∨ ∃ j, (j < bound)%nat ∧ hasError (gw j) = true
         ∧ ∀ m, (m < j)%nat → hasError (gw m) = false.
Proof.
  induction bound as [| bound [Hok | (j & Hj & Herr & Hbefore)]].
  - left. intros n Hn. lia.
  - destruct (hasError (gw bound)) eqn:Hbound.
    + right. exists bound. split_and!; [lia | done | done].
    + left. intros n Hn.
      destruct (decide (n = bound)) as [-> | Hne]; [done | apply Hok; lia].
  - right. exists j. split_and!; [lia | done | done].
Qed.

(** The run against a cleared gateway: it makes every call of the
    sequence and ends normally. *)
Lemma exec_cleared_main_sequence (gw : Gateway) (h : DeviceHandle) :
  calls (exec (cleared gw) 0 (main_sequence h)).1 = main_sequence_calls
  ∧ (exec (cleared gw) 0 (main_sequence h)).2 = inr tt
  ∧ writes (exec (cleared gw) 0 (main_sequence h)).1
    = (handshake_writes
       ++ cycle_writes ++ cycle_writes ++ cycle_writes ++ cycle_writes)%list
  ∧ waited (exec (cleared gw) 0 (main_sequence h)).1 = 20.
Proof. split_and!; reflexivity. Qed.

Lemma raises_only_bind {A B : Type} (e : Py.exn) (p : Script A)
    (f : A → Script B) :
  raises_only e p → (∀ a, raises_only e (f a)) → raises_only e (p ≫= f).
Proof.
  intros Hp Hf. induction Hp as [a | | c k _ IH | secs k _ IH | line k _ IH].
  - apply Hf.
  - constructor.
  - by apply (ro_Accessor e c (λ r, k r ≫= f)).
  - by apply (ro_Sleep e secs (k ≫= f)).
  - by apply (ro_Print e line (k ≫= f)).
Qed.

Lemma raises_only_exec {A : Type} (e : Py.exn) (p : Script A) :
  raises_only e p →
  ∀ (gw : Gateway) (n : nat) e', (exec gw n p).2 = inl e' → e' = e.
Proof.
  induction 1 as [a | | c k _ IH | secs k _ IH | line k _ IH];
    intros gw n e' Hend; simpl in Hend.
  - discriminate.
  - congruence.
  - specialize (IH (gw n) gw (S n) e').
    destruct (exec gw (S n) (k (gw n))). auto.
  - specialize (IH gw n e'). destruct (exec gw n k). auto.
  - specialize (IH gw n e'). destruct (exec gw n k). auto.
Qed.

Lemma raises_only_read_number h od :
  raises_only self_create_error_message (read_number h od).
Proof.
  apply ro_Accessor. intros r. simpl. destruct (hasError r); constructor.
Qed.

Lemma raises_only_write_number h v od bits :
  raises_only self_create_error_message (write_number h v od bits).
Proof.
  apply ro_Accessor. intros r. simpl. destruct (hasError r); constructor.
Qed.

Create HintDb raises_only.
#[export] Hint Resolve raises_only_read_number raises_only_write_number
  : raises_only.
#[export] Hint Constructors raises_only : raises_only.

Ltac raises_only_steps :=
  repeat (apply raises_only_bind; [auto with raises_only | intros ?]);
  unfold sleep, print; auto with raises_only.

Lemma raises_only_move_loop h times count :
  raises_only self_create_error_message (move_loop h times count).
Proof.
  revert count. induction times as [| times IH]; intros count;
    cbn [move_loop].
  - constructor.
  - raises_only_steps.
Qed.

Lemma raises_only_main_sequence h :
  raises_only self_create_error_message (main_sequence h).
Proof.
  unfold main_sequence. apply raises_only_bind.
  - unfold enable_handshake. raises_only_steps.
  - intros _. apply raises_only_bind; [apply raises_only_move_loop |].
    intros _. constructor.
Qed.

(** X4.  Whatever the gateway answers, the register writes of the sequence
    are an initial part of the writes of the run without errors: mode = 1,
    controlword 6, 7, 15 and the four turns of the loop.  No write is
    skipped, repeated or made out of order before the run stops. *)
Theorem main_sequence_writes_prefix (gw : Gateway) (h : DeviceHandle) :
  writes (exec gw 0 (main_sequence h)).1
  `prefix_of` (handshake_writes
               ++ cycle_writes ++ cycle_writes ++ cycle_writes
               ++ cycle_writes)%list.
Proof.
  destruct (fail_fast_prefix gw _ (fail_fast_main_sequence h) 0%nat)
    as [rest Hrest].
  destruct (exec_cleared_main_sequence gw h) as (_ & _ & <- & _).
  exists (writes rest). by rewrite Hrest, writes_app.
Qed.

(** X5.  The sequence ends normally exactly when none of its 33 accessor
    calls reports an error, and it then has made all 33 and waited 20
    seconds; when call number [j] is the first to report one, the run makes
    [j + 1] calls and raises the [AttributeError] of the load of
    [self.create_error_message]. *)
Theorem main_sequence_completion (gw : Gateway) (h : DeviceHandle) :
  ((exec gw 0 (main_sequence h)).2 = inr tt
   ↔ ∀ n, (n < main_sequence_calls)%nat → hasError (gw n) = false)
  ∧ ((∀ n, (n < main_sequence_calls)%nat → hasError (gw n) = false) →
     calls (exec gw 0 (main_sequence h)).1 = main_sequence_calls
     ∧ waited (exec gw 0 (main_sequence h)).1 = 20)
  ∧ ∀ j, (j < main_sequence_calls)%nat →
         (∀ m, (m < j)%nat → hasError (gw m) = false) →
         hasError (gw j) = true →
         calls (exec gw 0 (main_sequence h)).1 = S j
         ∧ (exec gw 0 (main_sequence h)).2 = inl self_create_error_message.
Proof.
  destruct (exec_cleared_main_sequence gw h) as (Hcalls & Hend & _ & Hwait).
  assert (Hsame : (∀ n, (n < main_sequence_calls)%nat → hasError (gw n) = false)
                  → exec gw 0 (main_sequence h)
                    = exec (cleared gw) 0 (main_sequence h)).
  { intros Hok. apply exec_no_error. intros m Hm. apply Hok.
    rewrite Hcalls in Hm. lia. }
  assert (Hfirst : ∀ j, (j < main_sequence_calls)%nat →
             (∀ m, (m < j)%nat → hasError (gw m) = false) →
             hasError (gw j) = true →
             calls (exec gw 0 (main_sequence h)).1 = S j
             ∧ (exec gw 0 (main_sequence h)).2 = inl self_create_error_message).
  { intros j Hj Hbefore Herr.
    destruct (exec_first_error gw _ (fail_fast_main_sequence h) 0%nat j)
      as [Hmade [e He]].
    - intros m Hm. apply Hbefore. lia.
    - done.
    - by rewrite Hcalls.
    - split; [done |]. rewrite He. f_equal.
      exact (raises_only_exec _ _ (raises_only_main_sequence h) gw 0%nat e He). }
  split_and!.
  - split.
    + intros Hnormal.
      destruct (first_error gw main_sequence_calls)
        as [Hok | (j & Hj & Herr & Hbefore)]; [done |].
      destruct (Hfirst j Hj Hbefore Herr) as [_ He]. congruence.
    + intros Hok. by rewrite (Hsame Hok).
  - intros Hok. by rewrite (Hsame Hok).
  - exact Hfirst.
Qed.

Lemma main_sequence_completion_witness :
  (∀ n, (n < main_sequence_calls)%nat → hasError (stub_ok n) = false)
  ∧ (exec stub_ok 0 (main_sequence 7)).2 = inr tt
  ∧ calls (exec stub_ok 0 (main_sequence 7)).1 = 33%nat
  ∧ (5 < main_sequence_calls)%nat
  ∧ (∀ m, (m < 5)%nat → hasError (stub_fail_cw7 m) = false)
  ∧ hasError (stub_fail_cw7 5%nat) = true
  ∧ calls (exec stub_fail_cw7 0 (main_sequence 7)).1 = 6%nat.
Proof.
  assert (Hok : ∀ n, (n < main_sequence_calls)%nat → hasError (stub_ok n) = false)
    by (intros n _; reflexivity).
  assert (Hbefore : ∀ m, (m < 5)%nat → hasError (stub_fail_cw7 m) = false).
  { intros m Hm. do 5 (destruct m as [| m]; [reflexivity |]). lia. }
  assert (Hlt : (5 < main_sequence_calls)%nat) by (unfold main_sequence_calls; lia).
  destruct (main_sequence_completion stub_ok 7) as (Hiff & Hall & _).
  destruct (main_sequence_completion stub_fail_cw7 7) as (_ & _ & Hfirst).
  split_and!; [exact Hok | exact (proj2 Hiff Hok) | exact (proj1 (Hall Hok))
              | exact Hlt | exact Hbefore | reflexivity
              | exact (proj1 (Hfirst 5%nat Hlt Hbefore eq_refl))].
Defined.

(** ** Values read are never branched on *)

Lemma alike_bind {A A' B B' : Type} (p : Script A) (q : Script A')
    (f : A → Script B) (g : A' → Script B') :
  alike p q → (∀ a a', alike (f a) (g a')) → alike (p ≫= f) (q ≫= g).
Proof.
  intros Hpq Hfg.
  induction Hpq as [a a' | e | c k k' _ IH | secs k k' _ IH
                   | line line' k k' _ IH].
  - apply Hfg.
  - constructor.
  - apply (alike_Accessor c (λ r, k r ≫= f) (λ r, k' r ≫= g)). auto.
  - by apply (alike_Sleep secs (k ≫= f) (k' ≫= g)).
  - by apply (alike_Print line line' (k ≫= f) (k' ≫= g)).
Qed.

Lemma alike_exec {A B : Type} (p : Script A) (q : Script B) :
  alike p q →
  ∀ (gw1 gw2 : Gateway) (n : nat),
    (∀ m, hasError (gw1 m) = hasError (gw2 m)) →
    device_events (exec gw1 n p).1 = device_events (exec gw2 n q).1
    ∧ ending (exec gw1 n p).2 = ending (exec gw2 n q).2.
Proof.
  induction 1 as [a a' | e | c k k' Hk IH | secs k k' _ IH
                 | line line' k k' _ IH];
    intros gw1 gw2 n Hflags; simpl; try done.
  - destruct (IH (gw1 n) (gw2 n) (Hflags n) gw1 gw2 (S n) Hflags) as [Hev Hend].
    destruct (exec gw1 (S n) (k (gw1 n))), (exec gw2 (S n) (k' (gw2 n))).
    simpl in *. by rewrite Hev.
  - destruct (IH gw1 gw2 n Hflags) as [Hev Hend].
    destruct (exec gw1 n k), (exec gw2 n k'). simpl in *. by rewrite Hev.
  - destruct (IH gw1 gw2 n Hflags) as [Hev Hend].
    destruct (exec gw1 n k), (exec gw2 n k'). by simpl in *.
Qed.

Lemma alike_read_number h od : alike (read_number h od) (read_number h od).
Proof.
  apply alike_Accessor. intros r r' Hflag. simpl. rewrite Hflag.
  destruct (hasError r'); constructor.
Qed.

Lemma alike_write_number h v od bits :
  alike (write_number h v od bits) (write_number h v od bits).
Proof.
  apply alike_Accessor. intros r r' Hflag. simpl. rewrite Hflag.
  destruct (hasError r'); constructor.
Qed.

Lemma alike_sleep secs : alike (sleep secs) (sleep secs).
Proof. repeat constructor. Qed.

Lemma alike_print line line' : alike (print line) (print line').
Proof. repeat constructor. Qed.

Create HintDb alike.
#[export] Hint Resolve alike_read_number alike_write_number alike_sleep
  alike_print : alike.
#[export] Hint Constructors alike : alike.

Ltac alike_steps :=
  repeat (cbv zeta; apply alike_bind; [auto with alike | intros ? ?]);
  cbv zeta; auto with alike.

Lemma alike_move_loop h times count count' :
  alike (move_loop h times count) (move_loop h times count').
Proof.
  revert count count'. induction times as [| times IH]; intros count count';
    cbn [move_loop].
  - constructor.
  - alike_steps.
Qed.

Lemma alike_main_sequence h : alike (main_sequence h) (main_sequence h).
Proof.
  unfold main_sequence. apply alike_bind.
  - unfold enable_handshake. alike_steps.
  - intros _ _. cbv zeta. apply alike_bind; [apply alike_move_loop |].
    intros _ _. constructor.
Qed.

(** X6.  No value read from the device changes what the sequence does to
    it: two runs whose gateways report errors at the same calls make the
    same accessor calls and waits, in the same order, and end the same way,
    whatever the five reads return.  Only the printed lines can differ. *)
Theorem main_sequence_value_oblivious (gw1 gw2 : Gateway) (h : DeviceHandle) :
  (∀ n, hasError (gw1 n) = hasError (gw2 n)) →
  device_events (exec gw1 0 (main_sequence h)).1
  = device_events (exec gw2 0 (main_sequence h)).1
  ∧ ending (exec gw1 0 (main_sequence h)).2
    = ending (exec gw2 0 (main_sequence h)).2.
Proof.
  intros Hflags.
  exact (alike_exec _ _ (alike_main_sequence h) gw1 gw2 0%nat Hflags).
Qed.

Lemma main_sequence_value_oblivious_witness :
  (∀ n, hasError (stub_ok n) = hasError (stub_other_values n))
  ∧ (exec stub_ok 0 (main_sequence 7)).1
    ≠ (exec stub_other_values 0 (main_sequence 7)).1
  ∧ device_events (exec stub_ok 0 (main_sequence 7)).1
    = device_events (exec stub_other_values 0 (main_sequence 7)).1.
Proof.
  assert (Hflags : ∀ n, hasError (stub_ok n) = hasError (stub_other_values n))
    by (intros n; reflexivity).
  split_and!; [exact Hflags | vm_compute; discriminate |].
  exact (proj1 (main_sequence_value_oblivious stub_ok stub_other_values 7 Hflags)).
Defined.

(** * The life cycle around the sequence *)

(** ** Running sessions *)

Lemma invocations_app (t u : list Item) :
  invocations (t ++ u) = (invocations t ++ invocations u)%list.
Proof.
  induction t as [| [c | secs | text] t IH]; simpl; by rewrite ?IH.
Qed.

Lemma output_app (t u : list Item) : output (t ++ u) = output t +:+ output u.
Proof.
  induction t as [| [c | secs | text] t IH]; simpl; rewrite ?IH; try done.
  clear IH. induction text as [| ch text IHtext]; [done |].
  by rewrite !append_String, IHtext.
Qed.

(** Sequencing two sessions: the second runs after the calls of the first,
    unless the first fails. *)
Lemma run_bind {A B : Type} (library : Library) (n : nat) (s : Session A)
    (f : A → Session B) :
  run library n (s ≫= f)
  = match run library n s with
    | (t, inl e) => (t, inl e)
    | (t, inr a) =>
        let '(u, o) := run library (n + length (invocations t)) (f a) in
        ((t ++ u)%list, o)
    end.
Proof.
  revert n. induction s as [a | e | c k IH | secs k IH | text k IH];
    intros n; simpl.
  - rewrite Nat.add_0_r. change (Done a ≫= f) with (f a).
    by destruct (run library n (f a)).
  - done.
  - change (Lib c k ≫= f) with (Lib c (λ r, k r ≫= f)). simpl.
    rewrite IH. destruct (run library (S n) (k (library n))) as [t [e | a]];
      [done |].
    simpl. rewrite Nat.add_succ_r.
    by destruct (run library _ (f a)).
  - change (Pause secs k ≫= f) with (Pause secs (k ≫= f)). simpl.
    rewrite IH. destruct (run library n k) as [t [e | a]]; [done |].
    by destruct (run library _ (f a)).
  - change (Write text k ≫= f) with (Write text (k ≫= f)). simpl.
    rewrite IH. destruct (run library n k) as [t [e | a]]; [done |].
    by destruct (run library _ (f a)).
Qed.

(** ** The scan callback *)

Lemma land_1_even (data : Z) : (Z.land data 1 =? 0)%Z = Z.even data.
Proof.
  change 1 with (Z.ones 1). rewrite Z.land_ones by lia.
  change (2 ^ 1) with 2. rewrite Zmod_even. by destruct (Z.even data).
Qed.

Lemma run_callback (N : NanolibConstants) (notification : Notification)
    (library : Library) (n : nat) :
  ∃ t, run library n (callback N notification) = (t, inr tt)
       ∧ invocations t = [].
Proof.
  destruct notification as [[info devicesFound] data]. unfold callback.
  destruct (info =? BusScanInfo_Start N)%Z; [by eexists |].
  destruct (info =? BusScanInfo_Progress N)%Z;
    [destruct (Z.land data 1 =? 0)%Z; by eexists |].
  destruct (info =? BusScanInfo_Finished N)%Z; by eexists.
Qed.

(** X7.  The scan callback makes no accessor call and never fails; on a
    progress notification it writes one dot, without a line end, when the
    progress counter is even and nothing when it is odd. *)
Theorem callback_progress_dots (N : NanolibConstants) (info : Z)
    (devicesFound : list DeviceId) (data : Z) (library : Library) (n : nat) :
  (run library n (callback N (info, devicesFound, data))).2 = inr tt
  ∧ invocations (run library n (callback N (info, devicesFound, data))).1 = []
  ∧ (info ≠ BusScanInfo_Start N → info = BusScanInfo_Progress N →
     (run library n (callback N (info, devicesFound, data))).1
     = if Z.even data then [Wrote "."] else []).
Proof.
  unfold callback. rewrite land_1_even.
  destruct (Z.eqb_spec info (BusScanInfo_Start N)) as [Hstart | Hstart].
  { split_and!; [done | done | intros Hne; by destruct Hne]. }
  destruct (Z.eqb_spec info (BusScanInfo_Progress N)) as [Hprog | Hprog].
  { destruct (Z.even data); by split_and!. }
  destruct (Z.eqb_spec info (BusScanInfo_Finished N));
    (split_and!; [done | done | intros _ Heq; by destruct Hprog]).
Qed.

Lemma callback_progress_dots_witness :
  1 ≠ BusScanInfo_Start stub_constants
  ∧ 1 = BusScanInfo_Progress stub_constants
  ∧ (run stub_library 0 (callback stub_constants (1, [], 6))).1 = [Wrote "."]
  ∧ (run stub_library 0 (callback stub_constants (1, [], -3))).1 = [].
Proof.
  split; [discriminate |]. split; [reflexivity |]. split.
  - exact (proj2 (proj2 (callback_progress_dots stub_constants 1 [] 6
                           stub_library 0%nat))
             ltac:(discriminate) eq_refl).
  - exact (proj2 (proj2 (callback_progress_dots stub_constants 1 [] (-3)
                           stub_library 0%nat))
             ltac:(discriminate) eq_refl).
Defined.

(** The callbacks of a scan make no accessor call and never fail. *)
Lemma run_callbacks (N : NanolibConstants) (l : list Notification)
    (library : Library) (n : nat) :
  (run library n (callbacks N l)).2 = inr tt
  ∧ invocations (run library n (callbacks N l)).1 = [].
Proof.
  induction l as [| [[info devicesFound] data] l [IHend IHcalls]];
    cbn [callbacks]; [done |].
  rewrite run_bind.
  destruct (run_callback N (info, devicesFound, data) library n)
    as [t [-> Ht]].
  rewrite Ht, Nat.add_0_r.
  destruct (run library n (callbacks N l)) as [u o]. simpl in *.
  by rewrite invocations_app, Ht, IHcalls.
Qed.

(** ** Listing and selecting the bus hardware *)

(** The loop of [get_bus_hardware] prints one line per entry and leaves in
    [self.nanotec_vcp] the number of the last entry named exactly
    ['Nanotec VCP'], or what it held before when there is none. *)
Lemma run_get_bus_hardware_loop (library : Library) (n : nat)
    (l : list BusHardwareId) (line_num : Z) (v : option Z) :
  ∃ v', run library n (get_bus_hardware_loop l line_num v)
        = (hardware_lines line_num l, inr v')
    ∧ ((v' = v ∧ ∀ b, b ∈ l → getName b ≠ "Nanotec VCP")
       ∨ ∃ (i : nat) b,
           v' = Some (line_num + Z.of_nat i) ∧ l !! i = Some b
           ∧ getName b = "Nanotec VCP"
           ∧ ∀ (j : nat) b',
               (i < j)%nat → l !! j = Some b' → getName b' ≠ "Nanotec VCP").
Proof.
  revert line_num v. induction l as [| b l IH]; intros line_num v.
  - exists v. split; [done |]. left. split; [done |].
    intros b Hb. inversion Hb.
  - cbn [get_bus_hardware_loop hardware_lines].
    set (v1 := if String.eqb (getName b) "Nanotec VCP" then Some line_num else v).
    destruct (IH (line_num + 1) v1) as (v' & Hrun & Hv').
    exists v'. split.
    { change (run library n (Write (hardware_line line_num b)
                               (get_bus_hardware_loop l (line_num + 1) v1))
              = (Wrote (hardware_line line_num b)
                   :: hardware_lines (line_num + 1) l, inr v')).
      simpl. by rewrite Hrun. }
    destruct Hv' as [[-> Hnone] | (i & b' & -> & Hi & Hname & Hlast)].
    + subst v1. destruct (String.eqb_spec (getName b) "Nanotec VCP") as [Hb | Hb].
      * right. exists 0%nat, b. split_and!; [f_equal; lia | done | done |].
        intros [| j] b' Hlt Hj; [lia |]. apply Hnone.
        by apply (list_elem_of_lookup_2 _ j).
      * left. split; [done |].
        intros b' [-> | Hin]%elem_of_cons; [done | by apply Hnone].
    + right. exists (S i), b'. split_and!; [f_equal; lia | done | done |].
      intros [| j] b'' Hlt Hj; [lia |]. apply (Hlast j); [lia | done].
Qed.



(** X9.  When [get_bus_hardware] has bound [self.nanotec_vcp] to an index,
    [select_bus] on the returned list does not raise, and the index it
    returns is not below the recorded one: the exact match that
    [get_bus_hardware] records is one of the substring matches among which
    [select_bus] takes the last. *)
Theorem recorded_index_le_selected (library : Library) (n : nat)
    (t : list Item) (v : option Z) (l : list BusHardwareId) (i : Z) :
  run library n get_bus_hardware = (t, inr (v, l)) →
  v = Some i →
  ∃ j, select_bus l = inr (Py.Int j) ∧ (i ≤ j)%Z.
Proof.
  intros Hrun ->. revert Hrun.
  unfold get_bus_hardware. cbn [lib mbind Session_mbind Session_bind run].
  destruct (ans_hasError (library n)); [discriminate |].
  case_bool_decide; [discriminate |].
  destruct (run_get_bus_hardware_loop library (S n) (ans_hardware (library n))
              0 None) as (v & Hloop & Hv).
  cbn [print_line mbind Session_mbind Session_bind run].
  change (Session_bind ?f ?s) with (s ≫= f). rewrite run_bind, Hloop.
  cbn [run mret Session_mret]. intros [= _ -> <-].
  destruct Hv as [[[=] _] | (k & b & [= ->] & Hk & Hname & _)].
  unfold select_bus.
  destruct (select_bus_loop (ans_hardware (library n))) as (w & -> & Hw).
  destruct Hw as [[-> Hnone] | (j & b' & -> & Hj & Hsub & Hlast)].
  - exfalso. apply (Hnone b); [by apply (list_elem_of_lookup_2 _ k) |].
    rewrite Hname. by exists "", "".
  - simpl. exists (Z.of_nat j). split; [done |].
    destruct (decide (k ≤ j)%nat) as [Hle | Hgt]; [lia |].
    exfalso. apply (Hlast k b); [lia | done |].
    rewrite Hname. by exists "", "".
Qed.

Lemma recorded_index_le_selected_witness :
  (∃ t, run stub_library 0 get_bus_hardware
        = (t, inr (Some 1, [hw_other; hw_exact; hw_port])))
  ∧ select_bus [hw_other; hw_exact; hw_port] = inr (Py.Int 2)
  ∧ ∃ j, select_bus [hw_other; hw_exact; hw_port] = inr (Py.Int j) ∧ (1 ≤ j)%Z.
Proof.
  split; [eexists; reflexivity |]. split; [reflexivity |].
  exact (recorded_index_le_selected stub_library 0%nat _ (Some 1)
           [hw_other; hw_exact; hw_port] 1 eq_refl eq_refl).
Defined.

(** ** Options and scan *)

Lemma append_nil_r (s : string) : s +:+ "" = s.
Proof. induction s as [| c s IH]; [done | by rewrite append_String, IH]. Qed.

(** X10.  [bus_hardware_options] raises 'Error: unknown protocol' exactly
    when the protocol is none of CANopen, Modbus RTU, Modbus VCP and Modbus
    TCP, and then prints nothing.  Otherwise it prints one line naming the
    hardware and returns at most two options: none for Modbus VCP and TCP,
    baud rate and parity for Modbus RTU, and for CANopen the baud rate,
    followed by the adapter bus number only for IXXAT hardware. *)
Theorem bus_hardware_options_spec (N : NanolibConstants)
    (bus_hw_id : BusHardwareId) (library : Library) (n : nat) :
  let protocol := getProtocol bus_hw_id in
  let canopen := BUS_HARDWARE_ID_PROTOCOL_CANOPEN N in
  let rtu := BUS_HARDWARE_ID_PROTOCOL_MODBUS_RTU N in
  let vcp := BUS_HARDWARE_ID_PROTOCOL_MODBUS_VCP N in
  let tcp := BUS_HARDWARE_ID_PROTOCOL_MODBUS_TCP N in
  match run library n (bus_hardware_options N bus_hw_id) with
  | (t, inr options) =>
      t = [Wrote (selected_line bus_hw_id +:+ Py.nl)]
      ∧ (protocol = canopen ∨ protocol = rtu ∨ protocol = vcp
         ∨ protocol = tcp)
      ∧ (length options ≤ 2)%nat
      ∧ (protocol ≠ canopen → protocol ≠ rtu → options = [])
      ∧ (protocol ≠ canopen → protocol = rtu →
         options
         = [ (Serial_BAUD_RATE_OPTIONS_NAME N, SerialBaudRate_BAUD_RATE_19200 N);
             (Serial_PARITY_OPTIONS_NAME N, SerialParity_EVEN N) ])
      ∧ (protocol = canopen →
         options
         = (CanBus_BAUD_RATE_OPTIONS_NAME N, CanBaudRate_BAUD_RATE_1000K N)
           :: (if String.eqb (getBusHardware bus_hw_id) (BUS_HARDWARE_ID_IXXAT N)
               then [ (Ixxat_ADAPTER_BUS_NUMBER_OPTIONS_NAME N,
                       IxxatAdapterBusNumber_BUS_NUMBER_0_DEFAULT N) ]
               else []))
  | (t, inl f) =>
      t = [] ∧ f = Raised (Py.Exception "Error: unknown protocol")
      ∧ protocol ≠ canopen ∧ protocol ≠ rtu ∧ protocol ≠ vcp
      ∧ protocol ≠ tcp
  end.
Proof.
  intros protocol canopen rtu vcp tcp. unfold bus_hardware_options.
  fold protocol canopen rtu vcp tcp.
  destruct (String.eqb_spec protocol canopen) as [Hcan | Hcan].
  { destruct (String.eqb (getBusHardware bus_hw_id) (BUS_HARDWARE_ID_IXXAT N));
      simpl; split_and!; auto; done. }
  destruct (String.eqb_spec protocol rtu) as [Hrtu | Hrtu].
  { simpl. split_and!; auto; done. }
  destruct (String.eqb_spec protocol vcp) as [Hvcp | Hvcp].
  { simpl. split_and!; auto; done. }
  destruct (String.eqb_spec protocol tcp) as [Htcp | Htcp].
  { simpl. split_and!; auto; done. }
  simpl. by split_and!.
Qed.

Lemma bus_hardware_options_spec_witness :
  getProtocol hw_other = BUS_HARDWARE_ID_PROTOCOL_CANOPEN stub_constants
  ∧ (run stub_library 0 (bus_hardware_options stub_constants hw_other)).2
    = inr [ ("can adapter baud rate", "1000K");
            ("ixxat adapter bus number", "0") ].
Proof.
  split; [reflexivity |].
  pose proof (bus_hardware_options_spec stub_constants hw_other stub_library
                0%nat) as Hspec.
  cbv zeta in Hspec.
  destruct (run stub_library 0 (bus_hardware_options stub_constants hw_other))
    as [t [f | options]] eqn:Hrun; [discriminate Hrun |].
  destruct Hspec as (_ & _ & _ & _ & _ & Hcan).
  simpl. f_equal. exact (Hcan eq_refl).
Defined.

(** X11.  [scan_bus] returns exactly when the scan reports no error and at
    least one device: it then returns the library's device list unchanged
    and its last output is the line naming the first device.  Otherwise it
    raises with the library's error text or 'No devices found.'.  In every
    case it makes the single call [scanDevices], the output of the scan
    callbacks comes first, and the subscript [getResult()[0]] never
    fails. *)
Theorem scan_bus_spec (N : NanolibConstants) (bus_hw_id : BusHardwareId)
    (library : Library) (n : nat) :
  let result := library n in
  let scanned :=
    output (run library (S n) (callbacks N (ans_notifications result))).1 in
  invocations (run library n (scan_bus N bus_hw_id)).1 = [scanDevices bus_hw_id]
  ∧ match run library n (scan_bus N bus_hw_id) with
    | (t, inr device_ids) =>
        ans_hasError result = false
        ∧ device_ids = ans_devices result
        ∧ ∃ first rest,
            device_ids = first :: rest
            ∧ output t
              = scanned +:+ ("Found Device: " +:+ toString first) +:+ Py.nl
    | (t, inl f) =>
        output t = scanned
        ∧ ((ans_hasError result = true
            ∧ f = Raised (Py.Exception ("Error: scanDevices() - "
                                        +:+ ans_getError result)))
           ∨ (ans_hasError result = false ∧ ans_devices result = []
              ∧ f = Raised (Py.Exception "No devices found.")))
    end.
Proof.
  intros result scanned. unfold scan_bus.
  cbn [lib mbind Session_mbind Session_bind run]. fold result.
  change (Session_bind ?f ?s) with (s ≫= f). rewrite run_bind.
  destruct (run_callbacks N (ans_notifications result) library (S n))
    as [Hend Hcalls].
  subst scanned.
  destruct (run library (S n) (callbacks N (ans_notifications result)))
    as [u o]. simpl in Hend, Hcalls. subst o.
  rewrite Hcalls, Nat.add_0_r.
  destruct (ans_hasError result) eqn:Herr.
  { simpl. rewrite invocations_app, Hcalls, output_app, append_nil_r.
    split; [done |]. split; [done |]. by left. }
  destruct (ans_devices result) as [| first rest] eqn:Hdevices.
  { simpl. rewrite invocations_app, Hcalls, output_app, append_nil_r.
    split; [done |]. split; [done |]. by right. }
  simpl. rewrite invocations_app, Hcalls, output_app.
  split; [done |]. split_and!; [done | done |].
  exists first, rest. split; [done |]. simpl. by rewrite append_nil_r.
Qed.

Lemma scan_bus_spec_witness :
  (run stub_library 0 (scan_bus stub_constants hw_port)).2
  = inr [ {| toString := "C5-E-1-11" |} ]
  ∧ invocations (run stub_library 0 (scan_bus stub_constants hw_port)).1
    = [scanDevices hw_port]
  ∧ output (run stub_library 0 (scan_bus stub_constants hw_port)).1
    = "Scanning bus." +:+ Py.nl +:+ "." +:+ Py.nl +:+ "Scan finished."
      +:+ Py.nl +:+ "Found Device: C5-E-1-11" +:+ Py.nl.
Proof.
  pose proof (scan_bus_spec stub_constants hw_port stub_library 0%nat) as Hspec.
  cbv zeta in Hspec. destruct Hspec as [Hcalls Hspec].
  destruct (run stub_library 0 (scan_bus stub_constants hw_port))
    as [t [f | device_ids]] eqn:Hrun; [discriminate Hrun |].
  destruct Hspec as (_ & -> & first & rest & Hfirst & Hout).
  injection Hfirst as <- <-.
  split; [reflexivity |]. split; [exact Hcalls | exact Hout].
Defined.

(** ** The whole of [__main__] *)

Lemma main_stages (N : NanolibConstants) (accessor : option unit) :
  main N accessor
  = (setup N accessor;; ids ← get_bus_hardware; main_listed N ids.2).
Proof. reflexivity. Qed.

Lemma called_app (t u : list Event) : called (t ++ u) = (called t ++ called u)%list.
Proof.
  induction t as [| [c | secs | line] t IH]; simpl; by rewrite ?IH.
Qed.

Lemma invocations_item_of (t : list Event) :
  invocations (map item_of t) = map numberAccess (called t).
Proof.
  induction t as [| [c | secs | line] t IH]; simpl; by rewrite ?IH.
Qed.

(** A script run as a session is the script run against the library's
    number results. *)
Lemma run_lift {A : Type} (library : Library) (n : nat) (p : Script A) :
  run library n (lift p)
  = (map item_of (exec (gateway_of library) n p).1,
     outcome_of (exec (gateway_of library) n p).2).
Proof.
  revert n. induction p as [a | e | c k IH | secs k IH | line k IH];
    intros n; simpl; try done.
  - rewrite IH. change (gateway_of library n) with (number_result (library n)).
    by destruct (exec (gateway_of library) (S n) _).
  - rewrite IH. by destruct (exec (gateway_of library) n k).
  - rewrite IH. by destruct (exec (gateway_of library) n k).
Qed.

(** A fail-fast script that returns has met no error. *)
Lemma fail_fast_normal {A : Type} (gw : Gateway) (p : Script A) :
  fail_fast p →
  ∀ n a, (exec gw n p).2 = inr a → exec gw n p = exec (cleared gw) n p.
Proof.
  induction 1 as [a | e | c k Hraise _ IH | secs k _ IH | line k _ IH];
    intros n a' Hend; simpl in *; try done.
  - destruct (hasError (gw n)) eqn:Herr.
    + destruct (Hraise _ Herr) as [e He]. rewrite He in Hend. discriminate.
    + rewrite (cleared_eq gw n Herr).
      destruct (exec gw (S n) (k (gw n))) as [t o] eqn:Hk. simpl in Hend.
      specialize (IH (gw n) (S n) a'). rewrite Hk in IH.
      by rewrite <- (IH Hend).
  - destruct (exec gw n k) as [t o] eqn:Hk. simpl in Hend.
    specialize (IH n a'). rewrite Hk in IH. by rewrite <- (IH Hend).
  - destruct (exec gw n k) as [t o] eqn:Hk. simpl in Hend.
    specialize (IH n a'). rewrite Hk in IH. by rewrite <- (IH Hend).
Qed.

Lemma called_cleared_main_sequence (gw : Gateway) (h : DeviceHandle) (n : nat) :
  called (exec (cleared gw) n (main_sequence h)).1 = sequence_calls h.
Proof. reflexivity. Qed.

Lemma follows_bind {A B : Type} (s : Session A) (f : A → Session B)
    (L1 L2 : list LibCall) (Q : A → Prop) (R : B → Prop) :
  follows s L1 Q → (∀ a, Q a → follows (f a) L2 R) →
  follows (s ≫= f) (L1 ++ L2) R.
Proof.
  intros Hs Hf library n. rewrite run_bind. specialize (Hs library n).
  destruct (run library n s) as [t [fl | a]]; simpl in *.
  - destruct Hs as [Hpre He]. split; [by apply prefix_app_r | done].
  - destruct Hs as [<- HQ].
    specialize (Hf a HQ library (n + length (invocations t))%nat).
    destruct (run library _ (f a)) as [u [fl | b]]; simpl in *;
      rewrite invocations_app.
    + destruct Hf as [[k ->] He]. split; [| done].
      exists k. by rewrite app_assoc.
    + destruct Hf as [-> HR]. done.
Qed.

Lemma follows_lift_main_sequence (h : DeviceHandle) :
  follows (lift (main_sequence h)) (map numberAccess (sequence_calls h))
    (λ _, True).
Proof.
  intros library n. rewrite run_lift. set (gw := gateway_of library).
  pose proof (fail_fast_prefix gw _ (fail_fast_main_sequence h) n) as Hprefix.
  pose proof (fail_fast_normal gw _ (fail_fast_main_sequence h) n) as Hnormal.
  pose proof (called_cleared_main_sequence gw h n) as Hcalled.
  set (full := exec (cleared gw) n (main_sequence h)) in *. clearbody full.
  destruct (exec gw n (main_sequence h)) as [t [e | a]];
    cbn [fst snd outcome_of conforms] in *; rewrite invocations_item_of.
  - split; [| by eexists].
    destruct Hprefix as [rest Hrest]. rewrite Hrest, called_app in Hcalled.
    rewrite <- Hcalled, map_app. by eexists.
  - split; [| done]. rewrite <- (Hnormal a eq_refl) in Hcalled.
    by rewrite <- Hcalled.
Qed.

(** *** The methods, call by call *)

Lemma follows_setup (N : NanolibConstants) (accessor : option unit) :
  follows (setup N accessor) [setLoggingLevel (LogLevel_Info N)] (λ _, True).
Proof.
  intros library n. destruct accessor as [[] |]; simpl; [done |].
  split; [apply prefix_nil | by eexists].
Qed.

Lemma invocations_hardware_lines (i : Z) (l : list BusHardwareId) :
  invocations (hardware_lines i l) = [].
Proof. revert i. induction l as [| b l IH]; intros i; simpl; auto. Qed.

Lemma follows_get_bus_hardware :
  follows get_bus_hardware [listAvailableBusHardware] (λ _, True).
Proof.
  intros library n. unfold get_bus_hardware.
  cbn [lib mbind Session_mbind Session_bind run].
  destruct (ans_hasError (library n)); [simpl; by eauto |].
  case_bool_decide; [simpl; by eauto |].
  destruct (run_get_bus_hardware_loop library (S n) (ans_hardware (library n))
              0 None) as (v & Hrun & _).
  cbn [print_line mbind Session_mbind Session_bind run].
  change (Session_bind ?f ?s) with (s ≫= f). rewrite run_bind, Hrun.
  cbn [run mret Session_mret conforms invocations]. rewrite app_nil_r.
  by rewrite invocations_hardware_lines.
Qed.

Lemma follows_select_bus (l : list BusHardwareId) :
  follows (of_result (select_bus l)) []
    (λ bus_id, select_bus l = inr bus_id
               ∧ ∃ (i : nat) b, bus_id = Py.Int (Z.of_nat i) ∧ l !! i = Some b).
Proof.
  intros library n. unfold select_bus.
  destruct (select_bus_loop l) as (v & -> & Hv).
  destruct Hv as [[-> _] | (i & b & -> & Hi & _)]; simpl.
  - split; [done | by eexists].
  - split; [done |]. split; [done |]. by exists i, b.
Qed.

(** A subscript by an index that [select_bus] returned has an element. *)
Lemma follows_getitem {A : Type} (l : list A) (i : nat) (a : A) :
  l !! i = Some a →
  follows (getitem l (Py.Int (Z.of_nat i))) [] (λ x, x = a).
Proof.
  intros Hi library n. unfold getitem, subscript.
  destruct (Z.leb_spec 0 (Z.of_nat i)) as [_ | ?]; [| lia].
  by rewrite Nat2Z.id, Hi.
Qed.

Lemma follows_bus_hardware_options (N : NanolibConstants) (hw : BusHardwareId) :
  follows (bus_hardware_options N hw) [] (λ _, True).
Proof.
  intros library n. unfold bus_hardware_options.
  repeat match goal with
         | |- context [if ?b then _ else _] => destruct b
         end; simpl; try done.
  split; [done | by eexists].
Qed.

Lemma follows_open_bus_hardware (hw : BusHardwareId) (opts : BusHardwareOptions) :
  follows (open_bus_hardware hw opts) [openBusHardwareWithProtocol hw opts]
    (λ _, True).
Proof.
  intros library n. simpl. destruct (ans_hasError (library n)); simpl; eauto.
Qed.

Lemma follows_close_bus_hardware (hw : BusHardwareId) :
  follows (close_bus_hardware hw) [closeBusHardware hw] (λ _, True).
Proof.
  intros library n. simpl. destruct (ans_hasError (library n)); simpl; eauto.
Qed.

Lemma follows_connect_device (h : DeviceHandle) :
  follows (connect_device h) [connectDevice h] (λ _, True).
Proof.
  intros library n. simpl. destruct (ans_hasError (library n)); simpl; eauto.
Qed.

Lemma follows_disconnect_device (h : DeviceHandle) :
  follows (disconnect_device h) [disconnectDevice h] (λ _, True).
Proof.
  intros library n. simpl. destruct (ans_hasError (library n)); simpl; eauto.
Qed.

Lemma follows_scan_bus (N : NanolibConstants) (hw : BusHardwareId) :
  follows (scan_bus N hw) [scanDevices hw]
    (λ device_ids, ∃ d rest, device_ids = d :: rest).
Proof.
  intros library n. unfold scan_bus.
  cbn [lib mbind Session_mbind Session_bind run].
  change (Session_bind ?f ?s) with (s ≫= f). rewrite run_bind.
  destruct (run_callbacks N (ans_notifications (library n)) library (S n))
    as [Hend Hcalls].
  destruct (run library (S n) (callbacks N (ans_notifications (library n))))
    as [u o]. simpl in Hend, Hcalls. subst o.
  rewrite Hcalls, Nat.add_0_r.
  destruct (ans_hasError (library n)).
  { simpl. rewrite invocations_app, Hcalls. eauto. }
  destruct (ans_devices (library n)) as [| d rest].
  { simpl. rewrite invocations_app, Hcalls. eauto. }
  simpl. rewrite invocations_app, Hcalls. eauto.
Qed.

(** *** The stages of [__main__] *)

Lemma follows_main_connected (l : list BusHardwareId) (i : nat)
    (hw : BusHardwareId) (h : DeviceHandle) :
  l !! i = Some hw →
  follows (main_connected l (Py.Int (Z.of_nat i)) h)
    (connectDevice h :: map numberAccess (sequence_calls h)
     ++ [disconnectDevice h; closeBusHardware hw])
    (λ _, True).
Proof.
  intros Hi. unfold main_connected.
  apply (follows_bind _ _ [connectDevice h] _ _ _ (follows_connect_device h)).
  intros _ _.
  apply (follows_bind _ _ _ _ _ _ (follows_lift_main_sequence h)).
  intros _ _.
  apply (follows_bind _ _ [disconnectDevice h] _ _ _
           (follows_disconnect_device h)).
  intros _ _.
  apply (follows_bind _ _ [] [closeBusHardware hw] _ _
           (follows_getitem l i hw Hi)).
  intros ? ->. apply follows_close_bus_hardware.
Qed.

Lemma conforms_main_opened (N : NanolibConstants) (l : list BusHardwareId)
    (i : nat) (hw : BusHardwareId) (library : Library) (n : nat) :
  l !! i = Some hw →
  ∃ d h,
    conforms (run library n (main_opened N l (Py.Int (Z.of_nat i))))
      (scanDevices hw :: addDevice d :: connectDevice h
       :: map numberAccess (sequence_calls h)
       ++ [disconnectDevice h; closeBusHardware hw])
      (λ _, True).
Proof.
  intros Hi. unfold main_opened. rewrite run_bind.
  pose proof (follows_getitem l i hw Hi library n) as Hget.
  destruct (run library n (getitem l (Py.Int (Z.of_nat i))))
    as [t0 [f | x]]; simpl in Hget.
  { destruct Hget as [Ht0 He]. apply prefix_nil_inv in Ht0.
    exists {| toString := "" |}, 0. simpl. rewrite Ht0.
    split; [apply prefix_nil | done]. }
  destruct Hget as [Ht0 ->]. rewrite Ht0, Nat.add_0_r. rewrite run_bind.
  pose proof (follows_scan_bus N hw library n) as Hscan.
  destruct (run library n (scan_bus N hw)) as [t1 [f | device_ids]];
    simpl in Hscan.
  { destruct Hscan as [Ht1 He].
    exists {| toString := "" |}, 0. simpl. rewrite invocations_app, Ht0.
    split; [by apply prefix_app_r with (l2 := [scanDevices hw]) | done]. }
  destruct Hscan as [Ht1 (d & rest & ->)].
  rewrite Ht1. cbn [length]. rewrite run_bind.
  change (run library (n + 1) (getitem (d :: rest) (Py.Int 0)))
    with (@nil Item, @inr Failure DeviceId d).
  cbn [invocations length]. rewrite Nat.add_0_r, run_bind.
  cbn [create_device lib mbind Session_mbind Session_bind run mret
         Session_mret invocations length].
  exists d, (ans_handle (library (n + 1)%nat)).
  pose proof (follows_main_connected l i hw (ans_handle (library (n + 1)%nat))
                Hi library (n + 1 + 1)%nat) as Hrest.
  destruct (run library (n + 1 + 1) _) as [t2 [f | []]];
    cbn [conforms] in *; rewrite !invocations_app, Ht0, Ht1;
    cbn [invocations app].
  - destruct Hrest as [[k Hk] He]. split; [| done].
    exists k. by rewrite Hk.
  - destruct Hrest as [Hrest _]. by rewrite Hrest.
Qed.

Lemma conforms_main_listed (N : NanolibConstants) (l : list BusHardwareId)
    (library : Library) (n : nat) :
  ∃ hw opts d h,
    conforms (run library n (main_listed N l))
      (openBusHardwareWithProtocol hw opts :: scanDevices hw :: addDevice d
       :: connectDevice h :: map numberAccess (sequence_calls h)
       ++ [disconnectDevice h; closeBusHardware hw])
      (λ _, True)
    ∧ (invocations (run library n (main_listed N l)).1 ≠ [] →
       ∃ i : nat, select_bus l = inr (Py.Int (Z.of_nat i)) ∧ l !! i = Some hw).
Proof.
  unfold main_listed. rewrite run_bind.
  pose proof (follows_select_bus l library n) as Hsel.
  destruct (run library n (of_result (select_bus l))) as [t0 [f | bus_id]];
    cbn [conforms] in Hsel.
  { destruct Hsel as [Ht0%prefix_nil_inv He].
    exists hw_exact, [], {| toString := "" |}, 0. cbn [fst conforms].
    rewrite Ht0. split; [| done]. split; [apply prefix_nil | done]. }
  destruct Hsel as [Ht0 (Hselected & i & hw & -> & Hi)].
  rewrite Ht0. cbn [length]. rewrite Nat.add_0_r, run_bind.
  pose proof (follows_getitem l i hw Hi) as Hget.
  pose proof (Hget library n) as Hget1.
  destruct (run library n (getitem l (Py.Int (Z.of_nat i))))
    as [t1 [f | x]] eqn:Hrun1; cbn [conforms] in Hget1.
  { destruct Hget1 as [Ht1%prefix_nil_inv He].
    exists hw, [], {| toString := "" |}, 0. cbn [fst conforms].
    rewrite invocations_app, Ht0, Ht1.
    split; [| done]. split; [apply prefix_nil | done]. }
  destruct Hget1 as [Ht1 ->]. rewrite Ht1. cbn [length].
  rewrite Nat.add_0_r, run_bind.
  pose proof (follows_bus_hardware_options N hw library n) as Hopt.
  destruct (run library n (bus_hardware_options N hw))
    as [t2 [f | opts]]; cbn [conforms] in Hopt.
  { destruct Hopt as [Ht2%prefix_nil_inv He].
    exists hw, [], {| toString := "" |}, 0. cbn [fst conforms].
    rewrite !invocations_app, Ht0, Ht1, Ht2.
    split; [| done]. split; [apply prefix_nil | done]. }
  destruct Hopt as [Ht2 _]. rewrite Ht2. cbn [length].
  rewrite Nat.add_0_r, run_bind, Hrun1, Ht1. cbn [length].
  rewrite Nat.add_0_r, run_bind.
  pose proof (follows_open_bus_hardware hw opts library n) as Hopen.
  destruct (run library n (open_bus_hardware hw opts))
    as [t3 [f | []]]; cbn [conforms] in Hopen.
  { destruct Hopen as [Ht3 He].
    exists hw, opts, {| toString := "" |}, 0. cbn [fst conforms].
    rewrite !invocations_app, Ht0, Ht1, Ht2. cbn [app].
    split; [| by exists i].
    split; [| done].
    by apply prefix_app_r with (l2 := [openBusHardwareWithProtocol hw opts]). }
  destruct Hopen as [Hopen _]. rewrite Hopen. cbn [length].
  destruct (conforms_main_opened N l i hw library (n + 1) Hi) as (d & h & Hrest).
  exists hw, opts, d, h.
  destruct (run library (n + 1) (main_opened N l (Py.Int (Z.of_nat i))))
    as [t4 [f | []]]; cbn [fst conforms] in *;
    rewrite !invocations_app, Ht0, Ht1, Ht2, Hopen; cbn [app].
  - destruct Hrest as [[k Hk] He]. split; [| by exists i].
    split; [| done]. exists k. by rewrite Hk.
  - destruct Hrest as [Hrest _]. split; [| by exists i]. by rewrite Hrest.
Qed.

Lemma get_bus_hardware_returns (library : Library) (n : nat) :
  match run library n get_bus_hardware with
  | (_, inr ids) => ids.2 = ans_hardware (library n)
  | (_, inl _) => True
  end.
Proof.
  unfold get_bus_hardware. cbn [lib mbind Session_mbind Session_bind run].
  destruct (ans_hasError (library n)); [done |].
  case_bool_decide; [done |].
  destruct (run_get_bus_hardware_loop library (S n) (ans_hardware (library n))
              0 None) as (v & Hrun & _).
  cbn [print_line mbind Session_mbind Session_bind run].
  change (Session_bind ?f ?s) with (s ≫= f). by rewrite run_bind, Hrun.
Qed.

(** Every run of [__main__] makes the calls [main_calls], or an initial part
    of them when it stops with a raised exception; the hardware of these
    calls is the entry that [select_bus] picks in the list the library
    returned. *)
Lemma conforms_main (N : NanolibConstants) (accessor : option unit)
    (library : Library) :
  ∃ hw opts d h,
    conforms (run library 0 (main N accessor)) (main_calls N hw opts d h)
      (λ _, True)
    ∧ ((2 < length (invocations (run library 0 (main N accessor)).1))%nat →
       ∃ i : nat,
         select_bus (ans_hardware (library 1%nat)) = inr (Py.Int (Z.of_nat i))
         ∧ ans_hardware (library 1%nat) !! i = Some hw).
Proof.
  rewrite main_stages, run_bind.
  pose proof (follows_setup N accessor library 0%nat) as Hsetup.
  destruct (run library 0 (setup N accessor)) as [t0 [f | []]] eqn:Hrun0;
    cbn [conforms] in Hsetup.
  { destruct Hsetup as [Ht0 He].
    exists hw_exact, [], {| toString := "" |}, 0. cbn [fst conforms].
    split.
    - split; [| done].
      by apply prefix_app_r with (l2 := [setLoggingLevel (LogLevel_Info N)]).
    - intros Hlen. apply prefix_length in Ht0. simpl in Ht0. lia. }
  destruct Hsetup as [Hsetup _]. rewrite Hsetup. cbn [length].
  change (0 + 1)%nat with 1%nat. rewrite run_bind.
  pose proof (follows_get_bus_hardware library 1%nat) as Hget.
  assert (Hl : ∀ t ids, run library 1 get_bus_hardware = (t, inr ids) →
                        ids.2 = ans_hardware (library 1%nat)).
  { intros t ids. pose proof (get_bus_hardware_returns library 1%nat) as Hret.
    intros Hrun. rewrite Hrun in Hret. exact Hret. }
  destruct (run library 1 get_bus_hardware) as [t1 [f | ids]] eqn:Hrun1;
    cbn [conforms] in Hget.
  { destruct Hget as [Ht1 He].
    exists hw_exact, [], {| toString := "" |}, 0. cbn [fst conforms].
    rewrite invocations_app, Hsetup. split.
    - split; [| done]. destruct Ht1 as [k Hk]. cbn [app].
      apply prefix_cons.
      apply prefix_app_r with (l2 := [listAvailableBusHardware]).
      by exists k.
    - intros Hlen. apply prefix_length in Ht1.
      rewrite length_app in Hlen. simpl in *. lia. }
  destruct Hget as [Ht1 _]. rewrite Ht1. cbn [length].
  change (1 + 1)%nat with 2%nat. specialize (Hl t1 ids eq_refl).
  destruct (conforms_main_listed N ids.2 library 2)
    as (hw & opts & d & h & Hrest & Hsel).
  exists hw, opts, d, h. rewrite <- Hl.
  destruct (run library 2 (main_listed N ids.2)) as [t2 [f | []]]
    eqn:Hrun2; cbn [fst conforms] in *;
    rewrite !invocations_app, Hsetup, Ht1; cbn [app].
  - destruct Hrest as [[k Hk] He]. split.
    + split; [| done]. exists k. unfold main_calls. cbn [app]. by rewrite Hk.
    + intros Hlen. apply Hsel. simpl in Hlen.
      destruct (invocations t2); [simpl in Hlen; lia | done].
  - destruct Hrest as [Hrest _]. split.
    + split; [| done]. unfold main_calls. cbn [app]. by rewrite Hrest.
    + intros _. apply Hsel. by rewrite Hrest.
Qed.

(** *** Properties of every run of [__main__] *)

(** X12.  No run of [__main__] fails in a subscript: [bus_hardware_ids[bus_id]]
    and [device_ids[0]] always have an element, because [select_bus] returns
    an index of the list and [scan_bus] returns a non-empty list.  A run
    that fails fails with an exception that the code raises. *)
Theorem main_no_subscript_error (N : NanolibConstants)
    (accessor : option unit) (library : Library) :
  (run library 0 (main N accessor)).2 ≠ inl IndexError
  ∧ (run library 0 (main N accessor)).2 ≠ inl TypeError
  ∧ ∀ f, (run library 0 (main N accessor)).2 = inl f → ∃ e, f = Raised e.
Proof.
  destruct (conforms_main N accessor library)
    as (hw & opts & d & h & Hconf & _).
  destruct (run library 0 (main N accessor)) as [t [f | []]]; simpl in *.
  - destruct Hconf as [_ [e ->]]. split_and!; [done | done |].
    intros f [= <-]. by exists e.
  - split_and!; done.
Qed.

Lemma main_no_subscript_error_witness :
  (run stub_library_failing 0 (main stub_constants (Some tt))).2
  = inl (Raised (Py.Exception "Error: listAvailableBusHardware() - no driver"))
  ∧ ∃ e, Raised (Py.Exception "Error: listAvailableBusHardware() - no driver")
         = Raised e.
Proof.
  assert (Hend : (run stub_library_failing 0 (main stub_constants (Some tt))).2
                 = inl (Raised (Py.Exception
                                  "Error: listAvailableBusHardware() - no driver")))
    by (vm_compute; reflexivity).
  split; [exact Hend |].
  exact (proj2 (proj2 (main_no_subscript_error stub_constants (Some tt)
                         stub_library_failing)) _ Hend).
Defined.

(** X13.  The accessor calls of every run of [__main__] are, in this order,
    [setLoggingLevel], [listAvailableBusHardware],
    [openBusHardwareWithProtocol], [scanDevices], [addDevice],
    [connectDevice], the 33 register accesses of the sequence,
    [disconnectDevice] and [closeBusHardware], or an initial part of these
    when the run stops early; a run that ends normally has made all 41.
    The hardware opened, scanned and closed is one and the same, the entry
    that [select_bus] picks in the list the library returned, and the handle
    connected, accessed and disconnected is one and the same. *)
Theorem main_calls_order (N : NanolibConstants) (accessor : option unit)
    (library : Library) :
  ∃ hw opts d h,
    invocations (run library 0 (main N accessor)).1
    `prefix_of` main_calls N hw opts d h
    ∧ ((run library 0 (main N accessor)).2 = inr tt →
       invocations (run library 0 (main N accessor)).1
       = main_calls N hw opts d h)
    ∧ ((2 < length (invocations (run library 0 (main N accessor)).1))%nat →
       ∃ i : nat,
         select_bus (ans_hardware (library 1%nat)) = inr (Py.Int (Z.of_nat i))
         ∧ ans_hardware (library 1%nat) !! i = Some hw).
Proof.
  destruct (conforms_main N accessor library)
    as (hw & opts & d & h & Hconf & Hsel).
  exists hw, opts, d, h.
  destruct (run library 0 (main N accessor)) as [t [f | []]]; simpl in *.
  - destruct Hconf as [Hprefix _]. by split_and!.
  - destruct Hconf as [Hall _]. split_and!; [by rewrite Hall | done | done].
Qed.

Lemma main_calls_order_witness :
  (run stub_library 0 (main stub_constants (Some tt))).2 = inr tt
  ∧ (2 < length (invocations
                   (run stub_library 0 (main stub_constants (Some tt))).1))%nat
  ∧ ∃ hw opts d h,
      invocations (run stub_library 0 (main stub_constants (Some tt))).1
      = main_calls stub_constants hw opts d h
      ∧ ∃ i : nat,
          select_bus (ans_hardware (stub_library 1%nat))
          = inr (Py.Int (Z.of_nat i))
          ∧ ans_hardware (stub_library 1%nat) !! i = Some hw.
Proof.
  assert (Hend : (run stub_library 0 (main stub_constants (Some tt))).2 = inr tt)
    by (vm_compute; reflexivity).
  assert (Hlen : (2 < length (invocations (run stub_library 0
                                (main stub_constants (Some tt))).1))%nat)
    by (vm_compute; lia).
  split; [exact Hend |]. split; [exact Hlen |].
  destruct (main_calls_order stub_constants (Some tt) stub_library)
    as (hw & opts & d & h & _ & Hall & Hsel).
  exists hw, opts, d, h. split; [exact (Hall Hend) | exact (Hsel Hlen)].
Defined.

Lemma main_calls_cleanup (N : NanolibConstants) (hw : BusHardwareId)
    (opts : BusHardwareOptions) (d : DeviceId) (h : DeviceHandle)
    (k : nat) (c : LibCall) :
  main_calls N hw opts d h !! k = Some c → cleanup c = true →
  (k = 39%nat ∧ c = disconnectDevice h) ∨ (k = 40%nat ∧ c = closeBusHardware hw).
Proof.
  intros Hk Hc.
  do 41 (destruct k as [| k];
         [injection Hk as <-; first [discriminate Hc | auto] |]).
  discriminate Hk.
Qed.

(** X14.  In every run of [__main__] the two releasing calls come last:
    [disconnectDevice] is made only once the 39 calls before it have been
    made, and [closeBusHardware] only as call number 41.  So when a run
    fails and the bus has been closed, the failing call is that
    [closeBusHardware] itself; whatever fails earlier leaves the bus
    open. *)
Theorem main_cleanup_last (N : NanolibConstants) (accessor : option unit)
    (library : Library) :
  (∀ (k : nat) c,
      invocations (run library 0 (main N accessor)).1 !! k = Some c →
      cleanup c = true → (39 ≤ k)%nat)
  ∧ (∀ f hw,
        (run library 0 (main N accessor)).2 = inl f →
        closeBusHardware hw ∈ invocations (run library 0 (main N accessor)).1 →
        length (invocations (run library 0 (main N accessor)).1) = 41%nat
        ∧ last (invocations (run library 0 (main N accessor)).1)
          = Some (closeBusHardware hw)).
Proof.
  destruct (conforms_main N accessor library)
    as (hw & opts & d & h & Hconf & _).
  assert (Hprefix : invocations (run library 0 (main N accessor)).1
                    `prefix_of` main_calls N hw opts d h).
  { destruct (run library 0 (main N accessor)) as [t [f | []]]; simpl in *.
    - by destruct Hconf.
    - destruct Hconf as [-> _]. done. }
  clear Hconf.
  set (calls_made := invocations (run library 0 (main N accessor)).1) in *.
  split.
  - intros k c Hk Hc.
    pose proof (prefix_lookup_Some _ _ _ _ Hk Hprefix) as Hfull.
    destruct (main_calls_cleanup N hw opts d h k c Hfull Hc) as [[-> _] | [-> _]];
      lia.
  - intros f hw' _ [k Hk]%list_elem_of_lookup.
    pose proof (prefix_lookup_Some _ _ _ _ Hk Hprefix) as Hfull.
    destruct (main_calls_cleanup N hw opts d h k _ Hfull eq_refl)
      as [[_ [=]] | [-> [= ->]]].
    pose proof (prefix_length _ _ Hprefix) as Hle.
    pose proof (lookup_lt_Some _ _ _ Hk) as Hlt.
    assert (Hlen : length calls_made = 41%nat).
    { change (length (main_calls N hw opts d h)) with 41%nat in Hle. lia. }
    split; [exact Hlen |].
    rewrite last_lookup, Hlen. exact Hk.
Qed.

Lemma main_cleanup_last_witness :
  invocations (run stub_library 0 (main stub_constants (Some tt))).1 !! 40%nat
  = Some (closeBusHardware hw_port)
  ∧ cleanup (closeBusHardware hw_port) = true
  ∧ (39 ≤ 40)%nat.
Proof.
  assert (Hk : invocations (run stub_library 0
                              (main stub_constants (Some tt))).1 !! 40%nat
               = Some (closeBusHardware hw_port)) by (vm_compute; reflexivity).
  split; [exact Hk |]. split; [reflexivity |].
  exact (proj1 (main_cleanup_last stub_constants (Some tt) stub_library)
           40%nat (closeBusHardware hw_port) Hk eq_refl).
Defined.

(** ** The array and string accessors *)

(** [read_array] hands the accessor the index of [od_index] only, and a
    failed [read_array] or [read_string] raises what a failed
    [read_number] raises. *)
Lemma read_array_string_failure (library : Library) (n : nat)
    (h : DeviceHandle) (od_index : OdIndex) :
  ans_hasError (library n) = true →
  run library n (read_array h od_index)
  = ([Invoked (readNumberArray h (getIndex od_index))],
     inl (Raised self_create_error_message))
  ∧ run library n (read_string h od_index)
    = ([Invoked (readString h od_index)],
       inl (Raised self_create_error_message)).
Proof. intros Herr. simpl. by rewrite Herr. Qed.
